(** * o4n_render_config: the render pipeline of the Ansible module

    A shallow embedding of [plugins/modules/o4n_render_config.py]:
    [load_content], [parse_configuration], [render_configuration] and
    [main].  Python values are modelled by small inductive types, the
    exceptions by a sum type, the mutable [result] dictionary and the file
    system by explicit state passing.  The two external libraries (ttp and
    jinja2) are parameters of the development. *)

From Stdlib Require Import ZArith Ascii String DecimalString.
From stdpp Require Import base strings list gmap.

Local Open Scope string_scope.

(** ** Python values

    A [str] is a [string], one [ascii] for each character. *)

Module Py.

(** Values a captured field can hold. *)
Inductive scalar :=
| SNone
| SBool (b : bool)
| SInt (z : Z)
| SStr (s : string).

(** A [dict] with [str] keys, in insertion order. *)
Definition record := list (string * scalar).

#[warnings="-register-all"]
Inductive pyval :=
| PScalar (v : scalar)
| PDict (r : record)
| PList (l : list pyval).

Definition PStr (s : string) : pyval := PScalar (SStr s).

(** Exceptions.  [ValueErrorFrom prefix e] is [ValueError(f"{prefix}{str(e)}")];
    the exceptions the interpreter raises by itself carry no text. *)
Inductive exn :=
| ValueError (msg : string)
| ValueErrorFrom (prefix : string) (e : exn)
| TypeError
| AttributeError
| IndexError
| UnpackError (got : nat)
| OSError (path : string)
| UnicodeError
| LibraryError (msg : string).

(** [bool(v)] *)
Definition scalar_truthy (v : scalar) : bool :=
  match v with
  | SNone => false
  | SBool b => b
  | SInt z => negb (z =? 0)%Z
  | SStr "" => false
  | SStr _ => true
  end.

Definition truthy (v : pyval) : bool :=
  match v with
  | PScalar s => scalar_truthy s
  | PDict [] => false
  | PDict _ => true
  | PList [] => false
  | PList _ => true
  end.

(** [str(v)] *)
Definition str (v : scalar) : string :=
  match v with
  | SNone => "None"
  | SBool true => "True"
  | SBool false => "False"
  | SInt z => NilZero.string_of_int (Z.to_int z)
  | SStr s => s
  end.

(** The characters of a [str], each as a one-character [str]. *)
Fixpoint chars (s : string) : list string :=
  match s with
  | EmptyString => []
  | String a rest => String a EmptyString :: chars rest
  end.

(** [iter(v)]: what a [for] loop over [v] visits. *)
Definition iter (v : pyval) : exn + list pyval :=
  match v with
  | PList l => inr l
  | PDict r => inr (map (fun kv => PStr (fst kv)) r)
  | PScalar (SStr s) => inr (map PStr (chars s))
  | PScalar _ => inl TypeError
  end.

(** [v.values()] *)
Definition values (v : pyval) : exn + list scalar :=
  match v with
  | PDict r => inr (map snd r)
  | _ => inl AttributeError
  end.

(** [text.startswith(key)] *)
Definition startswith (text : string) (key : pyval) : exn + bool :=
  match key with
  | PScalar (SStr k) => inr (String.prefix k text)
  | _ => inl TypeError
  end.

(** ["\n".join(parts)] *)
Definition join_lines (parts : list string) : string :=
  String.concat (String "010"%char EmptyString) parts.

End Py.
Import Py.

(** Sequencing of computations that may raise. *)
Definition bind_exn {A B} (m : exn + A) (k : A -> exn + B) : exn + B :=
  match m with
  | inl e => inl e
  | inr a => k a
  end.

Notation "'try*' x := m 'in' k" := (bind_exn m (fun x => k))
  (at level 10, x pattern, m at level 100, k at level 200).

(** ** The external libraries *)

(** jinja2: [Template(source)] compiles a template, [t.render( **entry)]
    renders it with the fields of one record.  Both may raise. *)
Class Jinja2 := {
  compiled : Type;
  Template : string -> exn + compiled;
  render : compiled -> record -> exn + string
}.

(** ttp: [ttp(data, template)], [parse()] and [result(format="raw")] taken
    together; the result is a list. *)
Class TTP := {
  ttp_result : string -> string -> exn + list pyval
}.

(** The file system: a regular file holds the characters stored in it, as
    [write()] puts them there (newlines are stored as they are, as on every
    POSIX system). *)
Inductive node :=
| File (content : string)
| Dir.

Abbreviation filesystem := (gmap string node).

(** What the operating system decides and the file system above does not
    show:
    - [can_write path]: [open(path, 'w')] succeeds on a path that is not a
      directory;
    - [read_error path]: the exception [open(path, 'r')] or [read()] raises
      on the regular file at [path], if any (no permission to read it, bytes
      that do not decode);
    - [write_error path text]: the exception [write(text)] or the closing of
      the file raises, if any, once [open(path, 'w')] has emptied the file
      (no space left, a text that does not encode), together with what the
      file is left holding. *)
Class OS := {
  can_write : string -> bool;
  read_error : string -> option exn;
  write_error : string -> string -> option (exn * string)
}.

(** Text mode reads with universal newlines: a carriage return, alone or
    before a line feed, is read as a line feed. *)
Fixpoint universal_newlines (s : string) : string :=
  match s with
  | EmptyString => EmptyString
  | String c rest =>
      if Ascii.eqb c "013" then
        match rest with
        | String c' rest' =>
            if Ascii.eqb c' "010"
            then String "010" (universal_newlines rest')
            else String "010" (universal_newlines rest)
        | EmptyString => String "010" EmptyString
        end
      else String c (universal_newlines rest)
  end.

(** [os.path.exists(path)] *)
Definition exists_path (fs : filesystem) (path : string) : bool :=
  match fs !! path with
  | Some _ => true
  | None => false
  end.

(** The characters stored in a regular file. *)
Definition read_text (fs : filesystem) (path : string) : exn + string :=
  match fs !! path with
  | Some (File content) => inr content
  | _ => inl (OSError path)
  end.

(** [with open(path, 'r') as f: f.read()]: the stored characters as text
    mode hands them over, when the file can be read at all. *)
Definition open_read `{OS} (fs : filesystem) (path : string) : exn + string :=
  try* stored := read_text fs path in
  match read_error path with
  | Some e => inl e
  | None => inr (universal_newlines stored)
  end.

(** [with open(path, 'w') as f: f.write(text)]: opening empties the file (or
    creates it) before anything is written, so a write that breaks
    afterwards has already changed it. *)
Definition write_text `{OS} (fs : filesystem) (path text : string)
  : (exn + unit) * filesystem :=
  match fs !! path with
  | Some Dir => (inl (OSError path), fs)
  | _ =>
      if can_write path then
        match write_error path text with
        | Some (e, partial) => (inl e, <[path := File partial]> fs)
        | None => (inr tt, <[path := File text]> fs)
        end
      else (inl (OSError path), fs)
  end.

(** ** load_content *)

(** [param_value] is a [str] or [None].  With [is_path] the content read is a
    [str]; without, it is [param_value] itself. *)
Definition load_content `{OS} (param_value : option string) (is_path : bool)
    (fs : filesystem)
  : exn + ((if is_path then string else option string) * string) :=
  match is_path
    return exn + ((if is_path then string else option string) * string)
  with
  | true =>
      match param_value with
      | None => inl (ValueErrorFrom "Error loading content: " TypeError)
      | Some path =>
          if negb (exists_path fs path)
          then inl (ValueErrorFrom "Error loading content: "
                      (ValueError ("File not found: " ++ path)))
          else match open_read fs path with
               | inl e => inl (ValueErrorFrom "Error loading content: " e)
               | inr content => inr (content, "file:" ++ path)
               end
      end
  | false => inr (param_value, "inline")
  end.

(** ** parse_configuration *)

Definition parse_configuration `{TTP} (data template : string)
  : exn + list pyval :=
  match ttp_result data template with
  | inl e => inl (ValueErrorFrom "Error en parseo TTP: " e)
  | inr parsed => inr parsed
  end.

(** ** render_configuration *)

(** What the function returns: the template text alone (line 283) or the
    triple of line 298. *)
Inductive returned :=
| RetStr (s : string)
| RetTuple (rendered : string) (ignored_instances render_data : list pyval).

(** [any(text.startswith(key_ignore) for key_ignore in keys)], stopping at
    the first hit. *)
Fixpoint any_startswith (text : string) (keys : list pyval) : exn + bool :=
  match keys with
  | [] => inr false
  | key_ignore :: keys' =>
      try* hit := startswith text key_ignore in
      if hit then inr true else any_startswith text keys'
  end.

(** The generator of line 288 over the values of one entry: for every value
    [keys_ignore] is iterated anew. *)
Fixpoint any_value_startswith (vals : list scalar) (keys_ignore : pyval)
  : exn + bool :=
  match vals with
  | [] => inr false
  | value :: vals' =>
      try* keys := iter keys_ignore in
      try* hit := any_startswith (str value) keys in
      if hit then inr true else any_value_startswith vals' keys_ignore
  end.

Definition entry_ignored (entry keys_ignore : pyval) : exn + bool :=
  try* vals := values entry in
  any_value_startswith vals keys_ignore.

(** [template.render( **entry)]: [entry] has to be a mapping. *)
Definition render_entry `{Jinja2} (t : compiled) (entry : pyval)
  : exn + string :=
  match entry with
  | PDict r => render t r
  | _ => inl TypeError
  end.

(** The [for] loop of lines 285-295 with its three lists. *)
Fixpoint render_loop `{Jinja2} (t : compiled) (entries : list pyval)
    (keys_ignore : pyval)
    (rendered_parts : list string) (ignored_instances render_data : list pyval)
  : exn + (list string * list pyval * list pyval) :=
  match entries with
  | [] => inr (rendered_parts, ignored_instances, render_data)
  | entry :: entries' =>
      try* skip :=
        (if truthy keys_ignore then entry_ignored entry keys_ignore
         else inr false) in
      if skip : bool
      then render_loop t entries' keys_ignore
             rendered_parts (ignored_instances ++ [entry]) render_data
      else
        try* part := render_entry t entry in
        render_loop t entries' keys_ignore
          (rendered_parts ++ [part]) ignored_instances (render_data ++ [entry])
  end.

Definition render_configuration `{Jinja2}
    (parsed_data : pyval) (context_template : string) (keys_ignore : pyval)
  : exn + returned :=
  try* t := Template context_template in
  if negb (truthy parsed_data) then inr (RetStr context_template)
  else
    try* entries := iter parsed_data in
    try* (rendered_parts, ignored_instances, render_data) :=
      render_loop t entries keys_ignore [] [] [] in
    inr (RetTuple (join_lines rendered_parts) ignored_instances render_data).

(** ** main *)

(** [module.params] and [module.check_mode], as [AnsibleModule] hands them
    over; its own checks of the argument specification come before line 318
    and are not part of the model. *)
Record params := {
  config : option string;
  config_src : option string;
  template : option string;
  template_src : option string;
  dest_path : option string;
  keys_ignore : pyval;
  check_mode : bool
}.

(** The [result] dictionary; the last two keys are absent until line 366. *)
Record result := {
  changed : bool;
  rendered_config : string;
  config_source : option string;
  template_source : option string;
  result_dest_path : option string;
  ignored_instances : option pyval;
  render_data : option pyval
}.

Definition initial_result : result :=
  {| changed := false; rendered_config := "";
     config_source := None; template_source := None;
     result_dest_path := None;
     ignored_instances := None; render_data := None |}.

Definition set_changed (b : bool) (r : result) : result :=
  {| changed := b; rendered_config := rendered_config r;
     config_source := config_source r; template_source := template_source r;
     result_dest_path := result_dest_path r;
     ignored_instances := ignored_instances r; render_data := render_data r |}.

Definition set_config_source (s : string) (r : result) : result :=
  {| changed := changed r; rendered_config := rendered_config r;
     config_source := Some s; template_source := template_source r;
     result_dest_path := result_dest_path r;
     ignored_instances := ignored_instances r; render_data := render_data r |}.

Definition set_template_source (s : string) (r : result) : result :=
  {| changed := changed r; rendered_config := rendered_config r;
     config_source := config_source r; template_source := Some s;
     result_dest_path := result_dest_path r;
     ignored_instances := ignored_instances r; render_data := render_data r |}.

Definition set_dest_path (s : string) (r : result) : result :=
  {| changed := changed r; rendered_config := rendered_config r;
     config_source := config_source r; template_source := template_source r;
     result_dest_path := Some s;
     ignored_instances := ignored_instances r; render_data := render_data r |}.

Definition set_rendered (text : string) (ign kept : pyval) (r : result)
  : result :=
  {| changed := changed r; rendered_config := text;
     config_source := config_source r; template_source := template_source r;
     result_dest_path := result_dest_path r;
     ignored_instances := Some ign; render_data := Some kept |}.

(** How the module ends: [exit_json( **result)] or [fail_json(msg, **result)],
    the message being a literal text or the [str] of a caught exception. *)
Inductive message :=
| Text (s : string)
| StrOf (e : exn).

Inductive outcome :=
| exit_json (r : result)
| fail_json (msg : message) (r : result).

Definition result_of (o : outcome) : result :=
  match o with
  | exit_json r => r
  | fail_json _ r => r
  end.

Definition failed (o : outcome) : bool :=
  match o with
  | exit_json _ => false
  | fail_json _ _ => true
  end.

(** The body of the [try]: it updates [result], may write the destination,
    and ends normally, by an exception, or by the [fail_json] of line 353
    (which leaves through [SystemExit], not caught by [except Exception]). *)
Inductive step (A : Type) :=
| Ret (a : A)
| Raise (e : exn)
| SysExit (msg : string).
Arguments Ret {A} a.
Arguments Raise {A} e.
Arguments SysExit {A} msg.

Definition M (A : Type) : Type :=
  result -> filesystem -> step A * result * filesystem.

Definition ret {A} (a : A) : M A := fun r fs => (Ret a, r, fs).

Definition bind {A B} (m : M A) (k : A -> M B) : M B :=
  fun r fs =>
    match m r fs with
    | (Ret a, r', fs') => k a r' fs'
    | (Raise e, r', fs') => (Raise e, r', fs')
    | (SysExit msg, r', fs') => (SysExit msg, r', fs')
    end.

Notation "'do*' x := m 'in' k" := (bind m (fun x => k))
  (at level 10, x pattern, m at level 100, k at level 200).

(** A computation that only reads the file system. *)
Definition lift {A} (f : filesystem -> exn + A) : M A :=
  fun r fs =>
    match f fs with
    | inl e => (Raise e, r, fs)
    | inr a => (Ret a, r, fs)
    end.

Definition update (f : result -> result) : M unit :=
  fun r fs => (Ret tt, f r, fs).

Definition write `{OS} (path text : string) : M unit :=
  fun r fs =>
    match write_text fs path text with
    | (inl e, fs') => (Raise e, r, fs')
    | (inr _, fs') => (Ret tt, r, fs')
    end.

Definition exit_with (msg : string) : M unit :=
  fun r fs => (SysExit msg, r, fs).

Definition no_match_msg : string :=
  "No se encontraron datos válidos en el parseo".

(** Line 356: [parsed_raw[0][0] if isinstance(parsed_raw[0], list) else parsed_raw] *)
Definition normalise (parsed_raw : list pyval) : exn + pyval :=
  match parsed_raw with
  | [] => inl IndexError
  | PList [] :: _ => inl IndexError
  | PList (first :: _) :: _ => inr first
  | _ => inr (PList parsed_raw)
  end.

(** Line 360: the three-way unpacking of what [render_configuration] returned. *)
Definition unpack3 (v : returned) : exn + (string * pyval * pyval) :=
  match v with
  | RetTuple rendered ign kept => inr (rendered, PList ign, PList kept)
  | RetStr s =>
      match chars s with
      | [a; b; c] => inr (a, PStr b, PStr c)
      | cs => inl (UnpackError (length cs))
      end
  end.

(** Lines 330-333 and 338-341: an inline text when the parameter is set and
    not empty, the file otherwise. *)
Definition config_input `{OS} (p : params) (fs : filesystem)
  : exn + (string * string) :=
  match config p with
  | Some (String _ _ as text) => inr (text, "inline")
  | _ => load_content (config_src p) true fs
  end.

Definition template_input `{OS} (p : params) (fs : filesystem)
  : exn + (string * string) :=
  match template p with
  | Some (String _ _ as text) => inr (text, "inline")
  | _ => load_content (template_src p) true fs
  end.

(** Lines 345-346. *)
Definition echo_dest_path (p : params) (r : result) : result :=
  match dest_path p with
  | Some (String _ _ as dest) => set_dest_path dest r
  | _ => r
  end.

(** Lines 329-367: load, parse, render; returns [rendered]. *)
Definition stages `{Jinja2} `{TTP} `{OS} (p : params) : M string :=
  do* (config_content, source) := lift (config_input p) in
  do* _ := update (set_config_source source) in
  do* (context_template, source) := lift (template_input p) in
  do* _ := update (set_template_source source) in
  do* _ := update (echo_dest_path p) in
  do* parsed_raw :=
    lift (fun _ => parse_configuration config_content context_template) in
  do* _ :=
    match parsed_raw with
    | [] => exit_with no_match_msg
    | _ => ret tt
    end in
  do* parsed_data := lift (fun _ => normalise parsed_raw) in
  do* returned :=
    lift (fun _ =>
            render_configuration parsed_data context_template (keys_ignore p)) in
  do* (rendered, ign, kept) := lift (fun _ => unpack3 returned) in
  do* _ := update (set_rendered rendered ign kept) in
  ret rendered.

(** Lines 373-387: compare with the destination and write. *)
Definition write_dest `{OS} (dest rendered : string) : M unit :=
  do* present := lift (fun fs => inr (exists_path fs dest)) in
  if present : bool then
    do* current_content := lift (fun fs => open_read fs dest) in
    if String.eqb current_content rendered then update (set_changed false)
    else
      do* _ := write dest rendered in
      update (set_changed true)
  else
    do* _ := write dest rendered in
    update (set_changed true).

Definition main_try `{Jinja2} `{TTP} `{OS} (p : params) : M unit :=
  do* rendered := stages p in
  match check_mode p, dest_path p with
  | false, Some (String _ _ as dest) => write_dest dest rendered
  | _, _ => ret tt
  end.

Definition main `{Jinja2} `{TTP} `{OS} (p : params) (fs : filesystem)
  : outcome * filesystem :=
  match main_try p initial_result fs with
  | (Ret _, r, fs') => (exit_json r, fs')
  | (Raise e, r, fs') => (fail_json (StrOf e) r, fs')
  | (SysExit msg, r, fs') => (fail_json (Text msg) r, fs')
  end.

(** ** A model of jinja2

    [Template(source)] as the module calls it is jinja2's default
    environment: no strict mode ([undefined=Undefined]) and
    [keep_trailing_newline=False].  The model covers templates made of text
    and [{{ name }}] expressions; every other construct is outside the model,
    whose [Template] answers it with an error.  In the default environment a name that is not among the
    fields renders as the empty text, which is what [Undefined] prints;
    [strict] is the same engine under [StrictUndefined], which the module
    does not select. *)
Module Jinja2Model.


Inductive piece :=
| Data (text : string)
| Name (name : string).

Definition cr : ascii := "013".
Definition lf : ascii := "010".

(** Newlines are normalised to line feeds. *)
Fixpoint normalise_newlines (s : string) : string :=
  match s with
  | EmptyString => EmptyString
  | String c rest =>
      if Ascii.eqb c cr then
        match rest with
        | String c' rest' =>
            if Ascii.eqb c' lf then String lf (normalise_newlines rest')
            else String lf (normalise_newlines rest)
        | EmptyString => String lf EmptyString
        end
      else String c (normalise_newlines rest)
  end.

(** A single trailing newline is dropped. *)
Fixpoint drop_trailing_newline (s : string) : string :=
  match s with
  | EmptyString => EmptyString
  | String c EmptyString => if Ascii.eqb c lf then EmptyString else s
  | String c rest => String c (drop_trailing_newline rest)
  end.

Definition is_space (c : ascii) : bool :=
  Ascii.eqb c " " || Ascii.eqb c "009" || Ascii.eqb c lf.

Definition is_name_start (c : ascii) : bool :=
  let n := nat_of_ascii c in
  ((65 <=? n) && (n <=? 90) || (97 <=? n) && (n <=? 122) || (n =? 95))%nat.

Definition is_name_char (c : ascii) : bool :=
  let n := nat_of_ascii c in
  is_name_start c || ((48 <=? n) && (n <=? 57))%nat.

Fixpoint ltrim (cs : list ascii) : list ascii :=
  match cs with
  | c :: cs' => if is_space c then ltrim cs' else cs
  | [] => []
  end.

Definition trim (s : string) : string :=
  string_of_list_ascii
    (rev (ltrim (rev (ltrim (list_ascii_of_string s))))).

(** Names the expression grammar or the default globals give a meaning of
    their own. *)
Definition reserved : list string :=
  ["true"; "false"; "none"; "True"; "False"; "None"; "not"; "and"; "or";
   "in"; "is"; "if"; "else"; "self";
   "range"; "dict"; "lipsum"; "cycler"; "joiner"; "namespace"].

Definition variable_name (expr : string) : exn + string :=
  let name := trim expr in
  match list_ascii_of_string name with
  | c :: cs =>
      if is_name_start c && forallb is_name_char cs
         && negb (existsb (String.eqb name) reserved)
      then inr name
      else inl (LibraryError "expression outside the modelled subset")
  | [] => inl (LibraryError "Expected an expression")
  end.

Inductive mode := InData | InExpr.

Definition emit (buf : string) (rest : list piece) : list piece :=
  match buf with
  | EmptyString => rest
  | _ => Data buf :: rest
  end.

Definition snoc (buf : string) (c : ascii) : string :=
  buf ++ String c EmptyString.

Fixpoint lex (m : mode) (buf s : string) : exn + list piece :=
  match s with
  | EmptyString =>
      match m with
      | InData => inr (emit buf [])
      | InExpr => inl (LibraryError "unexpected end of template")
      end
  | String c rest =>
      match m, rest with
      | InData, String c' rest' =>
          if Ascii.eqb c "{" && Ascii.eqb c' "{" then
            try* pieces := lex InExpr EmptyString rest' in
            inr (emit buf pieces)
          else if Ascii.eqb c "{" && (Ascii.eqb c' "%" || Ascii.eqb c' "#") then
            inl (LibraryError "statement outside the modelled subset")
          else lex InData (snoc buf c) rest
      | InExpr, String c' rest' =>
          if Ascii.eqb c "}" && Ascii.eqb c' "}" then
            try* name := variable_name buf in
            try* pieces := lex InData EmptyString rest' in
            inr (Name name :: pieces)
          else lex InExpr (snoc buf c) rest
      | _, EmptyString => lex m (snoc buf c) rest
      end
  end.

Definition compile (source : string) : exn + list piece :=
  lex InData EmptyString (drop_trailing_newline (normalise_newlines source)).

Fixpoint lookup (name : string) (r : record) : option scalar :=
  match r with
  | [] => None
  | (k, v) :: r' => if String.eqb k name then Some v else lookup name r'
  end.

Definition render_piece (undefined : string -> exn + string) (r : record)
    (p : piece) : exn + string :=
  match p with
  | Data text => inr text
  | Name name =>
      match lookup name r with
      | Some v => inr (str v)
      | None => undefined name
      end
  end.

Fixpoint render_pieces (undefined : string -> exn + string) (t : list piece)
    (r : record) : exn + string :=
  match t with
  | [] => inr EmptyString
  | p :: t' =>
      try* text := render_piece undefined r p in
      try* rest := render_pieces undefined t' r in
      inr (text ++ rest)
  end.

Definition default : Jinja2 :=
  {| compiled := list piece;
     Template := compile;
     render := render_pieces (fun _ => inr EmptyString) |}.


End Jinja2Model.


(** A parser whose answer is given, for runs on concrete inputs. *)
Definition answering (answer : exn + list pyval) : TTP :=
  {| ttp_result := fun _ _ => answer |}.

(** An operating system on which every path can be opened for writing, and
    one on which none can; on both every regular file can be read and no
    write breaks once the file is open. *)
Definition permissive : OS :=
  {| can_write := fun _ => true;
     read_error := fun _ => None;
     write_error := fun _ _ => None |}.

Definition read_only : OS :=
  {| can_write := fun _ => false;
     read_error := fun _ => None;
     write_error := fun _ _ => None |}.

(** One on which no regular file decodes, and one whose disk is full: every
    write breaks after the file was opened and leaves it empty. *)
Definition undecodable : OS :=
  {| can_write := fun _ => true;
     read_error := fun _ => Some UnicodeError;
     write_error := fun _ _ => None |}.

Definition full_disk : OS :=
  {| can_write := fun _ => true;
     read_error := fun _ => None;
     write_error := fun path _ => Some (OSError path, EmptyString) |}.

(** ** Notions used in the statements *)

Local Open Scope list_scope.

(** A field value of [r], taken as text, starts with one of [prefixes]. *)
Definition starts_with_any (prefixes : list string) (r : record) : Prop :=
  Exists (fun value =>
            Exists (fun key => String.prefix key (str value) = true) prefixes)
         (map snd r).

#[global] Instance starts_with_any_dec prefixes r :
  Decision (starts_with_any prefixes r).
Proof. unfold starts_with_any. apply _. Defined.

(** [result] once both inputs are loaded (lines 335-346). *)
Definition loaded (p : params) (csrc tsrc : string) : result :=
  echo_dest_path p
    (set_template_source tsrc (set_config_source csrc initial_result)).

(** Nothing has to be written, or the destination is not a directory, can be
    read, can be opened for writing, and no write to it breaks. *)
Definition dest_writable `{OS} (p : params) (fs : filesystem) : Prop :=
  match check_mode p, dest_path p with
  | false, Some (String _ _ as dest) =>
      fs !! dest <> Some Dir /\ read_error dest = None
      /\ can_write dest = true /\ forall text, write_error dest text = None
  | _, _ => True
  end.

(** A stage before the writer fails: with which message, and with which
    [result] at that point. *)
Inductive stage_fails `{Jinja2} `{TTP} `{OS} (p : params) (fs : filesystem)
  : message -> result -> Prop :=
| config_fails e :
    config_input p fs = inl e ->
    stage_fails p fs (StrOf e) initial_result
| template_fails cfg csrc e :
    config_input p fs = inr (cfg, csrc) ->
    template_input p fs = inl e ->
    stage_fails p fs (StrOf e) (set_config_source csrc initial_result)
| parse_fails cfg csrc tmpl tsrc e :
    config_input p fs = inr (cfg, csrc) ->
    template_input p fs = inr (tmpl, tsrc) ->
    parse_configuration cfg tmpl = inl e ->
    stage_fails p fs (StrOf e) (loaded p csrc tsrc)
| no_match cfg csrc tmpl tsrc :
    config_input p fs = inr (cfg, csrc) ->
    template_input p fs = inr (tmpl, tsrc) ->
    parse_configuration cfg tmpl = inr [] ->
    stage_fails p fs (Text no_match_msg) (loaded p csrc tsrc)
| normalise_fails cfg csrc tmpl tsrc raw e :
    config_input p fs = inr (cfg, csrc) ->
    template_input p fs = inr (tmpl, tsrc) ->
    parse_configuration cfg tmpl = inr raw ->
    raw <> [] ->
    normalise raw = inl e ->
    stage_fails p fs (StrOf e) (loaded p csrc tsrc)
| render_fails cfg csrc tmpl tsrc raw data e :
    config_input p fs = inr (cfg, csrc) ->
    template_input p fs = inr (tmpl, tsrc) ->
    parse_configuration cfg tmpl = inr raw ->
    normalise raw = inr data ->
    render_configuration data tmpl (keys_ignore p) = inl e ->
    stage_fails p fs (StrOf e) (loaded p csrc tsrc)
| unpack_fails cfg csrc tmpl tsrc raw data returned e :
    config_input p fs = inr (cfg, csrc) ->
    template_input p fs = inr (tmpl, tsrc) ->
    parse_configuration cfg tmpl = inr raw ->
    normalise raw = inr data ->
    render_configuration data tmpl (keys_ignore p) = inr returned ->
    unpack3 returned = inl e ->
    stage_fails p fs (StrOf e) (loaded p csrc tsrc).

(** A text without a carriage return: it reads back as it was written. *)
Fixpoint cr_free (s : string) : bool :=
  match s with
  | EmptyString => true
  | String c rest => negb (Ascii.eqb c "013") && cr_free rest
  end.

(** The inputs of a second run are those of the first. *)
Definition inputs_fixed `{OS} (p : params) (fs fs' : filesystem) : Prop :=
  config_input p fs' = config_input p fs
  /\ template_input p fs' = template_input p fs.

(** ** Sample inputs *)

Module Sample.

Definition nl : string := String "010"%char EmptyString.

(** Two interface blocks, as in the module's documentation. *)
Definition config_text : string :=
  ("interface Gi0/0" ++ nl ++ "interface Gi0/1" ++ nl ++ " description uplink"
   ++ nl)%string.

Definition gi0 : record := [("ifname", SStr "Gi0/0")].
Definition gi1 : record := [("ifname", SStr "Gi0/1"); ("desc", SStr "uplink")].

(** The parser's answer for them: one template, one input, two matches. *)
Definition two_blocks : TTP :=
  answering (inr [PList [PList [PDict gi0; PDict gi1]]]).

(** Its answer when no line of the one input matched: one empty group for
    the one input, not an empty list. *)
Definition empty_result : TTP := answering (inr [PList [PDict []]]).

(** No result at all, not even for one input. *)
Definition no_result : TTP := answering (inr []).

Definition interface_template : string :=
  ("interface {{ ifname }}" ++ nl ++ " no ip proxy-arp")%string.


(** The two templates as [Template] compiles them. *)
Definition interface_pieces : list Jinja2Model.piece :=
  [Jinja2Model.Data "interface "; Jinja2Model.Name "ifname";
   Jinja2Model.Data (nl ++ " no ip proxy-arp")%string].


Definition run (template_text : string) (keys : pyval) (check : bool) : params :=
  {| config := Some config_text; config_src := None;
     template := Some template_text; template_src := None;
     dest_path := Some "out.cfg"; keys_ignore := keys;
     check_mode := check |}.

Definition no_files : filesystem := ∅.

(** The same run with the configuration read from a file. *)
Definition run_from_file (path : string) : params :=
  {| config := None; config_src := Some path;
     template := Some interface_template; template_src := None;
     dest_path := Some "out.cfg"; keys_ignore := PList [];
     check_mode := false |}.

Definition device_files : filesystem := {[ "device.cfg" := File config_text ]}.

Definition rendered_interfaces : string :=
  ("interface Gi0/0" ++ nl ++ " no ip proxy-arp" ++ nl
   ++ "interface Gi0/1" ++ nl ++ " no ip proxy-arp")%string.


Definition plain_run : params := run interface_template (PList []) false.

Definition plain_result : result :=
  set_rendered rendered_interfaces (PList []) (PList [PDict gi0; PDict gi1])
    (loaded plain_run "inline" "inline").

Definition same_file : filesystem :=
  {[ "out.cfg" := File rendered_interfaces ]}.

Definition other_file : filesystem :=
  {[ "out.cfg" := File "interface Gi0/9" ]}.

Definition ignoring_run : params :=
  run interface_template (PList [PStr "Gi"]) false.

Definition missing_error : exn :=
  ValueErrorFrom "Error loading content: "
    (ValueError "File not found: missing.cfg").

Definition cr : string := String "013"%char EmptyString.

(** The rendered interfaces stored with CRLF line ends. *)
Definition crlf_file : filesystem :=
  {[ "out.cfg" :=
       File ("interface Gi0/0" ++ cr ++ nl ++ " no ip proxy-arp" ++ cr ++ nl
             ++ "interface Gi0/1" ++ cr ++ nl ++ " no ip proxy-arp")%string ]}.

(** A template text of three characters, the first a carriage return, in a
    run whose parse finds nothing. *)
Definition cr_template : string := (cr ++ "bc")%string.

Definition cr_run : params := run cr_template (PList []) false.

Definition cr_result : result :=
  set_rendered cr (PStr "b") (PStr "c") (loaded cr_run "inline" "inline").

(** The destination holding a carriage return and nothing else. *)
Definition cr_file : filesystem := {[ "out.cfg" := File cr ]}.

(** A configuration in which no line starts an interface. *)
Definition no_match_config : string := ("hostname R1" ++ nl)%string.

Definition no_match_run : params :=
  {| config := Some no_match_config; config_src := None;
     template := Some interface_template; template_src := None;
     dest_path := Some "out.cfg"; keys_ignore := PList [];
     check_mode := false |}.

(** The destination after a write that broke on a full disk. *)
Definition emptied_file : filesystem := {[ "out.cfg" := File EmptyString ]}.

End Sample.

(** ** Further notions *)

(** [isinstance(v, dict)] *)
Definition is_dict (v : pyval) : Prop :=
  match v with
  | PDict _ => True
  | _ => False
  end.

(** The same parameters in or out of check mode. *)
Definition with_check_mode (b : bool) (p : params) : params :=
  {| config := config p; config_src := config_src p;
     template := template p; template_src := template_src p;
     dest_path := dest_path p; keys_ignore := keys_ignore p;
     check_mode := b |}.

(** * o4n_unavailable_hosts: hosts that do not answer on the SSH port

    A shallow embedding of [plugins/modules/o4n_unavailable_hosts.py]:
    [get_hosts_and_ip], [save_to_json], [find_slow_hosts] and [main].  The
    timed connection attempt, the shell, the YAML reader and the JSON writer
    are parameters. *)
Module UnavailableHosts.

(** What [yaml.safe_load] gives: scalars, sequences, and mappings with [str]
    keys. *)
#[warnings="-register-all"]
Inductive yaml :=
| YScalar (v : scalar)
| YSeq (items : list yaml)
| YMap (entries : list (string * yaml)).

Definition YStr (s : string) : yaml := YScalar (SStr s).

Inductive error :=
| Exn (e : exn)
| KeyError (key : string).

(** The platform.  [check_ssh_port] (lines 102-109) is taken whole: it is a
    timed [socket.create_connection], which answers [None] when the attempt
    times out or fails with a socket error, the elapsed time otherwise, and
    lets every other exception through.  [exceeds t n] is [t > n] on such a
    time.  [system] is [os.system], which gives an exit status and may change
    any file; [safe_load] is [yaml.safe_load]; [dumps] is the text
    [json.dump(data, file, indent=3)] writes. *)
Class Platform := {
  net : Type;
  response : Type;
  exceeds : response -> Z -> bool;
  check_ssh_port : yaml -> Z -> Z -> net -> (error + option response) * net;
  system : string -> filesystem -> Z * filesystem;
  safe_load : string -> error + yaml;
  dumps : list (string * (yaml * option response)) -> string
}.

(** ** Texts as lists of characters *)

(** [c.isspace()] on the characters up to U+00FF, which is what [\s] matches
    in a [str] pattern. *)
Definition isspace (c : ascii) : bool :=
  let n := nat_of_ascii c in
  ((9 <=? n) && (n <=? 13) || (28 <=? n) && (n <=? 32)
   || (n =? 133) || (n =? 160))%nat.

Definition nonspace (c : ascii) : bool := negb (isspace c).

(** [s.lower()], on the characters up to U+00FF: the letters A to Z and the
    capital letters from U+00C0 to U+00DE. *)
Definition lower_char (c : ascii) : ascii :=
  let n := nat_of_ascii c in
  if ((65 <=? n) && (n <=? 90)
      || (192 <=? n) && (n <=? 222) && negb (n =? 215))%nat
  then ascii_of_nat (n + 32) else c.

Fixpoint lower (s : string) : string :=
  match s with
  | EmptyString => EmptyString
  | String c rest => String (lower_char c) (lower rest)
  end.

(** [for line in file]: the lines, each with its newline; the last one may
    have none. *)
Fixpoint lines_from (current : list ascii) (text : list ascii)
  : list (list ascii) :=
  match text with
  | [] => match current with [] => [] | _ => [current] end
  | c :: rest =>
      if Ascii.eqb c "010" then (current ++ [c]) :: lines_from [] rest
      else lines_from (current ++ [c]) rest
  end.

Definition lines (text : list ascii) : list (list ascii) := lines_from [] text.

(** ** The pattern [(\S+)\s+ansible_host=(\S+)] *)

(** A greedy [cls+] followed by the rest of the pattern [k]: the longest run
    first, then the shorter ones. *)
Fixpoint plus {R} (cls : ascii -> bool)
    (k : list ascii -> list ascii -> option R) (matched text : list ascii)
  : option R :=
  match text with
  | [] => None
  | c :: rest =>
      if cls c then
        match plus cls k (matched ++ [c]) rest with
        | Some r => Some r
        | None => k (matched ++ [c]) rest
        end
      else None
  end.

(** A literal text. *)
Fixpoint literal (lit text : list ascii) : option (list ascii) :=
  match lit, text with
  | [], _ => Some text
  | a :: lit', c :: rest => if Ascii.eqb a c then literal lit' rest else None
  | _ :: _, [] => None
  end.

Definition ansible_host : list ascii := list_ascii_of_string "ansible_host=".

(** The pattern matched at the start of [text]; the two groups. *)
Definition match_here (text : list ascii) : option (list ascii * list ascii) :=
  plus nonspace
    (fun host_name after_name =>
       plus isspace
         (fun _ after_space =>
            match literal ansible_host after_space with
            | Some after_literal =>
                plus nonspace (fun host_ip _ => Some (host_name, host_ip))
                  [] after_literal
            | None => None
            end)
         [] after_name)
    [] text.

(** [re.search(pattern, line)]: the first position where the pattern
    matches. *)
Fixpoint search (line : list ascii) : option (list ascii * list ascii) :=
  match match_here line with
  | Some groups => Some groups
  | None =>
      match line with
      | [] => None
      | _ :: rest => search rest
      end
  end.

(** ** Dictionaries *)

(** [d[key] = value]: in place when the key is there, at the end when not. *)
Fixpoint dict_set {V} (d : list (string * V)) (key : string) (value : V)
  : list (string * V) :=
  match d with
  | [] => [(key, value)]
  | (k, v) :: d' =>
      if String.eqb k key then (k, value) :: d'
      else (k, v) :: dict_set d' key value
  end.

Fixpoint dict_get {V} (d : list (string * V)) (key : string) : option V :=
  match d with
  | [] => None
  | (k, v) :: d' => if String.eqb k key then Some v else dict_get d' key
  end.

(** [v[key]] *)
Definition subscript (v : yaml) (key : string) : error + yaml :=
  match v with
  | YMap entries =>
      match dict_get entries key with
      | Some value => inr value
      | None => inl (KeyError key)
      end
  | _ => inl (Exn TypeError)
  end.

(** [v.items()] *)
Definition items (v : yaml) : error + list (string * yaml) :=
  match v with
  | YMap entries => inr entries
  | _ => inl (Exn AttributeError)
  end.

Definition bind_error {A B} (m : error + A) (k : A -> error + B) : error + B :=
  match m with
  | inl e => inl e
  | inr a => k a
  end.

Notation "'let*' x := m 'in' k" := (bind_error m (fun x => k))
  (at level 10, x pattern, m at level 100, k at level 200).

(** ** get_hosts_and_ip *)

Abbreviation hosts := (list (string * yaml)).

(** Lines 116-120: one line of a static inventory. *)
Definition add_line (found : hosts) (line : list ascii) : hosts :=
  match search line with
  | Some (host_name, host_ip) =>
      dict_set found (string_of_list_ascii host_name)
        (YStr (string_of_list_ascii host_ip))
  | None => found
  end.

(** Lines 123-126: the host variables of a dynamic inventory. *)
Fixpoint add_hostvars (found : hosts) (hostvars : list (string * yaml))
  : error + hosts :=
  match hostvars with
  | [] => inr found
  | (key, value) :: hostvars' =>
      let* host_ip := subscript value "ansible_host" in
      add_hostvars (dict_set found key host_ip) hostvars'
  end.

(** The inventory is taken for a text file that can be read and holds no
    carriage return, so that what is read is what is stored. *)
Definition get_hosts_and_ip `{Platform} (type inventory_file : string)
    (fs : filesystem) : error + hosts :=
  match read_text fs inventory_file with
  | inl e => inl (Exn e)
  | inr content =>
      if String.eqb (lower type) "static"
      then inr (fold_left add_line (lines (list_ascii_of_string content)) [])
      else
        let* data := safe_load content in
        let* meta := subscript data "_meta" in
        let* hostvars := subscript meta "hostvars" in
        let* entries := items hostvars in
        add_hostvars [] entries
  end.

(** ** save_to_json *)

Abbreviation slow_hosts := (list (string * (yaml * option response))).

Definition save_to_json `{Platform} `{OS} (data : slow_hosts)
    (output_file : string) (fs : filesystem) : (error + unit) * filesystem :=
  match write_text fs output_file (dumps data) with
  | (inl e, fs') => (inl (Exn e), fs')
  | (inr _, fs') => (inr tt, fs')
  end.

(** ** find_slow_hosts *)

Definition all_answer : string := "No hay hosts con problemas de conexión".
Definition some_slow : string :=
  "Lista de hosts con problemas de conexión generada".
Definition not_imported : string :=
  "Inventario dinamico no importado from Fedele".

(** [inventory_object.rsplit("/", 1)]: the text before and after the last
    slash, when there is one. *)
Fixpoint rsplit_slash (s : string) : option (string * string) :=
  match s with
  | EmptyString => None
  | String c rest =>
      match rsplit_slash rest with
      | Some (before, after) => Some (String c before, after)
      | None => if Ascii.eqb c "/" then Some (EmptyString, rest) else None
      end
  end.

(** Lines 141-144. *)
Definition export_dir (inventory_object : string) : string :=
  match rsplit_slash inventory_object with
  | Some (before, _) => before
  | None => EmptyString
  end.

Definition export_file (inventory_object : string) : string :=
  (export_dir inventory_object ++ "/dynamic_inv.json")%string.

Definition export_command (inventory_object : string) : string :=
  ("ansible-inventory --list -i " ++ inventory_object ++ " --output="
   ++ export_file inventory_object)%string.

(** Lines 152-156: the probes, host after host. *)
Fixpoint probe_hosts `{Platform} (todo : hosts) (timeout_threshold ssh_port : Z)
    (slow : slow_hosts) (msg : string) (n : net)
  : (error + (string * slow_hosts)) * net :=
  match todo with
  | [] => (inr (msg, slow), n)
  | (host_name, host_ip) :: todo' =>
      match check_ssh_port host_ip ssh_port timeout_threshold n with
      | (inl e, n') => (inl e, n')
      | (inr response_time, n') =>
          let is_slow :=
            match response_time with
            | None => true
            | Some t => exceeds t timeout_threshold
            end in
          if is_slow
          then probe_hosts todo' timeout_threshold ssh_port
                 (dict_set slow host_name (host_ip, response_time)) some_slow n'
          else probe_hosts todo' timeout_threshold ssh_port slow msg n'
      end
  end.

Definition find_slow_hosts `{Platform} (type inventory_object : string)
    (timeout_threshold ssh_port : Z) (fs : filesystem) (n : net)
  : (error + (bool * string * slow_hosts)) * filesystem * net :=
  let probe (found : hosts) (fs' : filesystem) :=
    match probe_hosts found timeout_threshold ssh_port [] all_answer n with
    | (inl e, n') => (inl e, fs', n')
    | (inr (msg, slow), n') => (inr (true, msg, slow), fs', n')
    end in
  if String.eqb (lower type) "static" then
    match get_hosts_and_ip type inventory_object fs with
    | inl e => (inl e, fs, n)
    | inr found => probe found fs
    end
  else
    let '(cod_oper, fs') := system (export_command inventory_object) fs in
    if negb (cod_oper =? 0)%Z then (inr (false, not_imported, []), fs', n)
    else
      match get_hosts_and_ip type (export_file inventory_object) fs' with
      | inl e => (inl e, fs', n)
      | inr found => probe found fs'
      end.

(** ** main *)

(** [module.params], as [AnsibleModule] hands them over. *)
Record params := {
  type : string;
  inventory : string;
  timeout_threshold : Z;
  port : Z;
  json_output : option string
}.

(** How the module ends: one of the two [exit_json] calls of lines 186-189,
    or an exception nothing catches. *)
Inductive outcome `{Platform} :=
| exit_ok (content : slow_hosts) (msg : string)
| exit_failed (msg : string)
| uncaught (e : error).

(** [print("status", status)] *)
Definition status_line (status : bool) : string :=
  ("status " ++ str (SBool status))%string.

(** The standard output, how the module ends, the file system, the network. *)
Definition main `{Platform} `{OS} (p : params) (fs : filesystem) (n : net)
  : list string * outcome * filesystem * net :=
  match find_slow_hosts (type p) (inventory p) (timeout_threshold p) (port p)
          fs n with
  | (inl e, fs', n') => ([], uncaught e, fs', n')
  | (inr (status, msg, slow), fs', n') =>
      let printed := [status_line status] in
      if status then
        match json_output p with
        | Some output_file =>
            match save_to_json slow output_file fs' with
            | (inl e, fs'') => (printed, uncaught e, fs'', n')
            | (inr _, fs'') => (printed, exit_ok slow msg, fs'', n')
            end
        | None => (printed, exit_ok slow msg, fs', n')
        end
      else (printed, exit_failed msg, fs', n')
  end.

(** ** Notions used in the statements about this module *)

(** Nothing of the class comes next. *)
Definition stops (cls : ascii -> bool) (text : list ascii) : Prop :=
  match text with
  | [] => True
  | c :: _ => cls c = false
  end.

(** A text a [\S+] group can hold: not empty, no whitespace. *)
Definition token (s : string) : Prop :=
  s <> EmptyString /\ Forall (fun c => nonspace c = true) (list_ascii_of_string s).

(** A static inventory with one line for each host. *)
Definition inventory_line (entry : string * string) : string :=
  (entry.1 ++ " ansible_host=" ++ entry.2 ++ String "010"%char EmptyString)%string.

Fixpoint inventory_text (entries : list (string * string)) : string :=
  match entries with
  | [] => EmptyString
  | entry :: entries' => (inventory_line entry ++ inventory_text entries')%string
  end.

(** The dict those lines fill. *)
Definition hosts_of (entries : list (string * string)) : hosts :=
  fold_left (fun found entry => dict_set found entry.1 (YStr entry.2)) entries [].

(** The message goes with the list. *)
Definition consistent {V} (slow : list (string * V)) (msg : string) : Prop :=
  (slow = [] /\ msg = all_answer) \/ (slow <> [] /\ msg = some_slow).

(** The probe found the host slow. *)
Definition slow_response `{Platform} (timeout_threshold : Z)
    (response_time : option response) : Prop :=
  match response_time with
  | None => True
  | Some t => exceeds t timeout_threshold = true
  end.

(** A platform for the sample runs: times are whole seconds, the host
    ["10.0.0.2"] does not answer and every other host answers in one second;
    the shell command fails; no YAML text is readable. *)
Definition sample_platform : Platform :=
  {| net := nat;
     response := Z;
     exceeds := fun t n => (n <? t)%Z;
     check_ssh_port := fun host_ip _ _ n =>
       match host_ip with
       | YScalar (SStr "10.0.0.2") => (inr None, S n)
       | _ => (inr (Some 1%Z), S n)
       end;
     system := fun _ fs => (256%Z, fs);
     safe_load := fun _ => inl (Exn (LibraryError "not a YAML text"));
     dumps := fun data => String.concat "," (map fst data) |}.

Definition sample_entries : list (string * string) :=
  [("sw1", "10.0.0.1"); ("sw2", "10.0.0.2")].

Definition sample_files : filesystem :=
  {[ "hosts.ini" := File (inventory_text sample_entries) ]}.

Definition sample_params : params :=
  {| type := "static"; inventory := "hosts.ini"; timeout_threshold := 5;
     port := 22; json_output := Some "slow.json" |}.

Definition dynamic_params : params :=
  {| type := "dynamic"; inventory := "inventories/fedele.yaml";
     timeout_threshold := 5; port := 22; json_output := Some "slow.json" |}.


Definition missing_params : params :=
  {| type := "static"; inventory := "missing.ini"; timeout_threshold := 5;
     port := 22; json_output := Some "slow.json" |}.

Definition sample_slow
  : list (string * (yaml * option (@response sample_platform))) :=
  [("sw2", (YStr "10.0.0.2", None))].

(** A dynamic inventory as loaded, and a platform whose export command
    succeeds and whose YAML reader loads it. *)
Definition sample_hostvars : list (string * yaml) :=
  [("sw1", YMap [("ansible_host", YStr "10.0.0.1")]);
   ("sw2", YMap [("ansible_user", YStr "admin");
                 ("ansible_host", YStr "10.0.0.2")])].

Definition sample_data : yaml :=
  YMap [("_meta", YMap [("hostvars", YMap sample_hostvars)])].

Definition exporting_platform : Platform :=
  {| net := nat;
     response := Z;
     exceeds := fun t n => (n <? t)%Z;
     check_ssh_port := fun host_ip _ _ n =>
       match host_ip with
       | YScalar (SStr "10.0.0.2") => (inr None, S n)
       | _ => (inr (Some 1%Z), S n)
       end;
     system := fun _ fs =>
       (0%Z, <["inventories/dynamic_inv.json" := File "exported"]> fs);
     safe_load := fun _ => inr sample_data;
     dumps := fun data => String.concat "," (map fst data) |}.

Definition exported_files : filesystem :=
  {[ "inventories/dynamic_inv.json" := File "exported" ]}.

End UnavailableHosts.

(** ** The filter of [render_configuration] *)

Section Filter.
Context `{Jinja2}.

Lemma any_startswith_strs (text : string) (prefixes : list string) :
  any_startswith text (PStr <$> prefixes)
  = inr (bool_decide
           (Exists (fun key => String.prefix key text = true) prefixes)).
Proof.
  induction prefixes as [|key prefixes IH]; [done |].
  rewrite fmap_cons. simpl any_startswith.
  change (startswith text (PStr key)) with (@inr exn _ (String.prefix key text)).
  unfold bind_exn.
  - destruct (String.prefix key text) eqn:Hkey.
    + rewrite bool_decide_true; [done | by left].
    + rewrite IH. f_equal. apply bool_decide_ext.
      rewrite Exists_cons. split; [by right | intros [? | ?]; [congruence | done]].
Qed.

Lemma any_value_startswith_strs (vals : list scalar) (keys : pyval)
    (prefixes : list string) :
  iter keys = inr (PStr <$> prefixes) ->
  any_value_startswith vals keys
  = inr (bool_decide
           (Exists (fun value =>
                      Exists (fun key => String.prefix key (str value) = true)
                             prefixes) vals)).
Proof.
  intros Hiter. induction vals as [|value vals IH]; simpl any_value_startswith.
  - rewrite bool_decide_false; [done | by intros ?%Exists_nil].
  - rewrite Hiter. simpl bind_exn. rewrite any_startswith_strs. simpl bind_exn.
    destruct (decide (Exists (fun key => String.prefix key (str value) = true)
                             prefixes)) as [Hvalue | Hvalue].
    + rewrite (bool_decide_true _ Hvalue).
      rewrite bool_decide_true; [done | by left].
    + rewrite (bool_decide_false _ Hvalue), IH. f_equal. apply bool_decide_ext.
      rewrite Exists_cons. split; [by right | intros [? | ?]; [done | done]].
Qed.

Lemma entry_ignored_strs (r : record) (keys : pyval) (prefixes : list string) :
  iter keys = inr (PStr <$> prefixes) ->
  entry_ignored (PDict r) keys = inr (bool_decide (starts_with_any prefixes r)).
Proof. intros Hiter. unfold entry_ignored. simpl. by apply any_value_startswith_strs. Qed.

Lemma starts_with_none (r : record) : ¬ starts_with_any [] r.
Proof.
  unfold starts_with_any. rewrite Exists_exists.
  intros (value & _ & Hkey). by apply Exists_nil in Hkey.
Qed.

(** The loop over a list of records: the ignored and the kept entries are
    the two sides of a filter, and the parts are the renderings of the kept
    ones, all three appended in order. *)
Lemma render_loop_partition (t : compiled) (keys : pyval)
    (prefixes : list string) (recs : list record) :
  iter keys = inr (PStr <$> prefixes) ->
  (truthy keys = false -> prefixes = []) ->
  (forall r, r ∈ recs -> ¬ starts_with_any prefixes r ->
             exists part, render t r = inr part) ->
  forall parts ign kept,
  exists parts',
    Forall2 (fun r part => render t r = inr part)
            (filter (fun r => ¬ starts_with_any prefixes r) recs) parts'
    /\ render_loop t (PDict <$> recs) keys parts ign kept
       = inr (parts ++ parts',
              ign ++ (PDict <$> filter (starts_with_any prefixes) recs),
              kept ++ (PDict <$>
                         filter (fun r => ¬ starts_with_any prefixes r) recs)).
Proof.
  intros Hiter Hfalsy. induction recs as [|r recs IH]; intros Hrender parts ign kept.
  - exists []. split; [constructor |]. simpl. by rewrite !app_nil_r.
  - assert (Hskip : (if truthy keys then entry_ignored (PDict r) keys
                     else inr false)
                    = inr (bool_decide (starts_with_any prefixes r))).
    { destruct (truthy keys) eqn:Htruthy.
      - by apply entry_ignored_strs.
      - rewrite (Hfalsy eq_refl). rewrite bool_decide_false; [done |].
        apply starts_with_none. }
    rewrite fmap_cons. simpl render_loop. rewrite Hskip. simpl.
    case_bool_decide as Hign.
    + destruct (IH (fun r' Hr' => Hrender r' (list_elem_of_further _ _ _ Hr'))
                  parts (ign ++ [PDict r]) kept) as (parts' & Hparts & ->).
      exists parts'. rewrite (filter_cons_True (starts_with_any prefixes)) by done.
      rewrite (filter_cons_False (fun r => ¬ starts_with_any prefixes r)) by tauto.
      split; [done |]. by rewrite fmap_cons, <- app_assoc.
    + destruct (Hrender r (list_elem_of_here _ _) Hign) as [part Hpart].
      rewrite Hpart. simpl.
      destruct (IH (fun r' Hr' => Hrender r' (list_elem_of_further _ _ _ Hr'))
                  (parts ++ [part]) ign (kept ++ [PDict r]))
        as (parts' & Hparts & ->).
      exists (part :: parts').
      rewrite (filter_cons_False (starts_with_any prefixes)) by done.
      rewrite (filter_cons_True (fun r => ¬ starts_with_any prefixes r)) by done.
      split; [by constructor |]. by rewrite fmap_cons, <- !app_assoc.
Qed.

(** [render_configuration] on a non-empty list of records. *)
Lemma render_configuration_partition (tmpl : string) (t : compiled)
    (keys : pyval) (prefixes : list string) (recs : list record) :
  Template tmpl = inr t ->
  iter keys = inr (PStr <$> prefixes) ->
  (truthy keys = false -> prefixes = []) ->
  recs <> [] ->
  (forall r, r ∈ recs -> ¬ starts_with_any prefixes r ->
             exists part, render t r = inr part) ->
  exists parts,
    Forall2 (fun r part => render t r = inr part)
            (filter (fun r => ¬ starts_with_any prefixes r) recs) parts
    /\ render_configuration (PList (PDict <$> recs)) tmpl keys
       = inr (RetTuple (join_lines parts)
                (PDict <$> filter (starts_with_any prefixes) recs)
                (PDict <$> filter (fun r => ¬ starts_with_any prefixes r) recs)).
Proof.
  intros Ht Hiter Hfalsy Hne Hrender.
  destruct (render_loop_partition t keys prefixes recs Hiter Hfalsy Hrender
              [] [] []) as (parts & Hparts & Hloop).
  exists parts. split; [done |].
  unfold render_configuration. rewrite Ht. simpl.
  destruct recs as [| r recs]; [done |]. simpl truthy. simpl negb.
  cbv iota. simpl in Hloop |- *. by rewrite Hloop.
Qed.

Lemma elem_of_fmap_PDict (r : record) (rs : list record) :
  PDict r ∈ PDict <$> rs <-> r ∈ rs.
Proof.
  rewrite list_elem_of_fmap. split.
  - intros (r' & Heq & Hr'). by simplify_eq.
  - intros Hr. by exists r.
Qed.

Lemma filter_none {A} (P : A -> Prop) `{forall x, Decision (P x)} (l : list A) :
  (forall x, ¬ P x) -> filter P l = [].
Proof.
  intros HP. induction l as [| x l IH]; [done |].
  by rewrite filter_cons_False.
Qed.

Lemma filter_all {A} (P : A -> Prop) `{forall x, Decision (P x)} (l : list A) :
  (forall x, P x) -> filter P l = l.
Proof.
  intros HP. induction l as [| x l IH]; [done |].
  rewrite filter_cons_True by done. by rewrite IH.
Qed.

(** C3. For every list of records and every list of ignore-prefixes (given
    that the template compiles and the records to keep render), the call
    returns the two sides of a filter: a record is among the ignored ones
    exactly when one of its field values, as text, starts with one of the
    prefixes, and among the kept ones exactly when none does; with no
    prefix, every record is kept.  Only the empty list of records makes the
    call return without the two lists. *)
Theorem filter_partition (tmpl : string) (t : compiled)
    (recs : list record) (prefixes : list string) :
  Template tmpl = inr t ->
  (forall r, r ∈ recs -> ¬ starts_with_any prefixes r ->
             exists part, render t r = inr part) ->
  match render_configuration (PList (PDict <$> recs)) tmpl
          (PList (PStr <$> prefixes)) with
  | inr (RetTuple _ ignored kept) =>
      ignored = PDict <$> filter (starts_with_any prefixes) recs
      /\ kept = PDict <$> filter (fun r => ¬ starts_with_any prefixes r) recs
      /\ (forall r, r ∈ recs ->
            (PDict r ∈ ignored <-> starts_with_any prefixes r)
            /\ (PDict r ∈ kept <-> ¬ starts_with_any prefixes r))
      /\ (prefixes = [] -> ignored = [] /\ kept = PDict <$> recs)
  | inr (RetStr _) => recs = []
  | inl _ => False
  end.
Proof.
  intros Ht Hrender.
  destruct recs as [| r0 recs0] eqn:Hrecs.
  { unfold render_configuration. by rewrite Ht. }
  rewrite <- Hrecs in *.
  destruct (render_configuration_partition tmpl t (PList (PStr <$> prefixes))
              prefixes recs Ht eq_refl) as (parts & _ & ->);
    [by destruct prefixes | by subst | done |].
  split; [done |]. split; [done |]. split.
  - intros r Hr. rewrite !elem_of_fmap_PDict, !list_elem_of_filter. tauto.
  - intros ->. split.
    + rewrite filter_none; [done | apply starts_with_none].
    + rewrite filter_all; [done | apply starts_with_none].
Qed.



End Filter.

Section Pipeline.
Context `{Jinja2} `{TTP} `{OS}.

(** The stages before the writer, stage by stage. *)
Lemma stages_eq (p : params) (r : result) (fs : filesystem) :
  stages p r fs =
  match config_input p fs with
  | inl e => (Raise e, r, fs)
  | inr (config_content, csrc) =>
      let r1 := set_config_source csrc r in
      match template_input p fs with
      | inl e => (Raise e, r1, fs)
      | inr (context_template, tsrc) =>
          let r2 := echo_dest_path p (set_template_source tsrc r1) in
          match parse_configuration config_content context_template with
          | inl e => (Raise e, r2, fs)
          | inr [] => (SysExit no_match_msg, r2, fs)
          | inr parsed_raw =>
              match normalise parsed_raw with
              | inl e => (Raise e, r2, fs)
              | inr parsed_data =>
                  match render_configuration parsed_data context_template
                          (keys_ignore p) with
                  | inl e => (Raise e, r2, fs)
                  | inr returned =>
                      match unpack3 returned with
                      | inl e => (Raise e, r2, fs)
                      | inr (rendered, ign, kept) =>
                          (Ret rendered, set_rendered rendered ign kept r2, fs)
                      end
                  end
              end
          end
      end
  end.
Proof.
  unfold stages, bind, lift, update, ret, exit_with.
  destruct (config_input p fs) as [e | [config_content csrc]]; [done |].
  destruct (template_input p fs) as [e | [context_template tsrc]]; [done |].
  cbv zeta.
  destruct (parse_configuration config_content context_template)
    as [e | [| first parsed_raw]]; [done | done |].
  destruct (normalise (first :: parsed_raw)) as [e | parsed_data]; [done |].
  destruct (render_configuration parsed_data context_template (keys_ignore p))
    as [e | returned]; [done |].
  destruct (unpack3 returned) as [e | [[rendered ign] kept]]; done.
Qed.

Ltac by_stages :=
  rewrite stages_eq; cbv zeta;
  repeat (case_match; try done); simplify_eq; try done.

(** They leave the file system alone. *)
Lemma stages_fs (p : params) (r : result) (fs : filesystem) :
  (stages p r fs).2 = fs.
Proof. by_stages. Qed.

(** ... and never set [changed]. *)
Lemma stages_changed (p : params) (r : result) (fs : filesystem) :
  changed (stages p r fs).1.2 = changed r.
Proof. by_stages; unfold echo_dest_path; by repeat case_match. Qed.

(** When they end normally, [rendered_config] holds the text they return. *)
Lemma stages_rendered (p : params) (r r' : result) (fs fs' : filesystem)
    (text : string) :
  stages p r fs = (Ret text, r', fs') -> rendered_config r' = text.
Proof.
  rewrite stages_eq. cbv zeta. intros Hs.
  repeat case_match; by simplify_eq.
Qed.

(** They read the file system only through the two inputs. *)
Lemma stages_ext (p : params) (r : result) (fs fs' : filesystem) :
  config_input p fs = config_input p fs' ->
  template_input p fs = template_input p fs' ->
  (stages p r fs).1 = (stages p r fs').1.
Proof.
  intros Hc Ht. rewrite !stages_eq, <- Hc, <- Ht. cbv zeta.
  repeat (case_match; try done).
Qed.

(** The writer, case by case on what the destination holds: first the
    writing itself, from [open(dest, 'w')] on, then the whole of it. *)
Lemma write_eq (dest text : string) (r : result) (fs : filesystem) :
  fs !! dest <> Some Dir ->
  (do* _ := write dest text in update (set_changed true)) r fs =
  if can_write dest then
    match write_error dest text with
    | Some (e, partial) => (Raise e, r, <[dest := File partial]> fs)
    | None => (Ret tt, set_changed true r, <[dest := File text]> fs)
    end
  else (Raise (OSError dest), r, fs).
Proof.
  intros Hdir. unfold bind, write, write_text, update.
  destruct (fs !! dest) as [[stored |] |]; try done;
    destruct (can_write dest); try done;
    by destruct (write_error dest text) as [[e partial] |].
Qed.

Lemma write_dest_eq (dest text : string) (r : result) (fs : filesystem) :
  write_dest dest text r fs =
  match fs !! dest with
  | Some Dir => (Raise (OSError dest), r, fs)
  | Some (File stored) =>
      match read_error dest with
      | Some e => (Raise e, r, fs)
      | None =>
          if String.eqb (universal_newlines stored) text
          then (Ret tt, set_changed false r, fs)
          else if can_write dest then
                 match write_error dest text with
                 | Some (e, partial) => (Raise e, r, <[dest := File partial]> fs)
                 | None =>
                     (Ret tt, set_changed true r, <[dest := File text]> fs)
                 end
               else (Raise (OSError dest), r, fs)
      end
  | None =>
      if can_write dest then
        match write_error dest text with
        | Some (e, partial) => (Raise e, r, <[dest := File partial]> fs)
        | None => (Ret tt, set_changed true r, <[dest := File text]> fs)
        end
      else (Raise (OSError dest), r, fs)
  end.
Proof.
  unfold write_dest.
  destruct (fs !! dest) as [[stored |] |] eqn:Hdest.
  - unfold bind at 1 2. unfold lift, exists_path, open_read, read_text.
    rewrite !Hdest. simpl.
    destruct (read_error dest) as [e |]; [done |].
    destruct (String.eqb (universal_newlines stored) text); [done |].
    apply write_eq. by rewrite Hdest.
  - unfold bind, lift, exists_path, open_read, read_text.
    by rewrite !Hdest.
  - unfold bind at 1. unfold lift, exists_path. rewrite Hdest.
    apply write_eq. by rewrite Hdest.
Qed.

(** How [main] ends when a stage before the writer raised. *)
Lemma main_raise (p : params) (fs fs' : filesystem) (e : exn) (r : result) :
  stages p initial_result fs = (Raise e, r, fs') ->
  main p fs = (fail_json (StrOf e) r, fs).
Proof.
  intros Hs. pose proof (stages_fs p initial_result fs) as Hfs.
  unfold main, main_try, bind. rewrite Hs in Hfs |- *. simpl in *. by subst.
Qed.

(** ... when line 353 ended the run, *)
Lemma main_sysexit (p : params) (fs fs' : filesystem) (msg : string)
    (r : result) :
  stages p initial_result fs = (SysExit msg, r, fs') ->
  main p fs = (fail_json (Text msg) r, fs).
Proof.
  intros Hs. pose proof (stages_fs p initial_result fs) as Hfs.
  unfold main, main_try, bind. rewrite Hs in Hfs |- *. simpl in *. by subst.
Qed.

(** ... when there is nothing to write, *)
Lemma main_no_write (p : params) (fs fs' : filesystem) (text : string)
    (r : result) :
  stages p initial_result fs = (Ret text, r, fs') ->
  check_mode p = true \/ dest_path p = None \/ dest_path p = Some EmptyString ->
  main p fs = (exit_json r, fs).
Proof.
  intros Hs Hno. pose proof (stages_fs p initial_result fs) as Hfs.
  unfold main, main_try, bind. rewrite Hs in Hfs |- *. simpl in *. subst.
  destruct Hno as [-> | [-> | ->]]; [done | |]; by destruct (check_mode p).
Qed.

(** ... and when the writer runs. *)
Lemma main_write (p : params) (fs fs' : filesystem) (dest text : string)
    (r : result) :
  stages p initial_result fs = (Ret text, r, fs') ->
  check_mode p = false -> dest_path p = Some dest -> dest <> EmptyString ->
  main p fs =
  match write_dest dest text r fs with
  | (Ret _, r', fs'') => (exit_json r', fs'')
  | (Raise e, r', fs'') => (fail_json (StrOf e) r', fs'')
  | (SysExit msg, r', fs'') => (fail_json (Text msg) r', fs'')
  end.
Proof.
  intros Hs Hmode Hdest Hne. pose proof (stages_fs p initial_result fs) as Hfs.
  unfold main, main_try, bind. rewrite Hs in Hfs |- *. simpl in *. subst.
  rewrite Hmode, Hdest. by destruct dest.
Qed.

Lemma set_changed_same (r : result) : set_changed (changed r) r = r.
Proof. by destruct r. Qed.

(** How [main] ends, from what the stages and the writer give. *)
Lemma main_outcome (p : params) (fs : filesystem) :
  exists s r,
    stages p initial_result fs = (s, r, fs)
    /\ changed r = false
    /\ match s with
       | Raise e => main p fs = (fail_json (StrOf e) r, fs)
       | SysExit msg => main p fs = (fail_json (Text msg) r, fs)
       | Ret text =>
           rendered_config r = text
           /\ match check_mode p, dest_path p with
              | false, Some (String c dest') =>
                  let dest := String c dest' in
                  let written :=
                    if can_write dest then
                      match write_error dest text with
                      | Some (e, partial) =>
                          (fail_json (StrOf e) r, <[dest := File partial]> fs)
                      | None =>
                          (exit_json (set_changed true r),
                           <[dest := File text]> fs)
                      end
                    else (fail_json (StrOf (OSError dest)) r, fs) in
                  main p fs =
                  match fs !! dest with
                  | Some Dir => (fail_json (StrOf (OSError dest)) r, fs)
                  | Some (File stored) =>
                      match read_error dest with
                      | Some e => (fail_json (StrOf e) r, fs)
                      | None =>
                          if String.eqb (universal_newlines stored) text
                          then (exit_json (set_changed false r), fs)
                          else written
                      end
                  | None => written
                  end
              | _, _ => main p fs = (exit_json r, fs)
              end
       end.
Proof.
  pose proof (stages_fs p initial_result fs) as Hfs.
  pose proof (stages_changed p initial_result fs) as Hch.
  destruct (stages p initial_result fs) as [[s r] fs'] eqn:Hs.
  simpl in Hfs, Hch. subst fs'. exists s, r. split; [done |]. split; [done |].
  destruct s as [text | e | msg].
  - split; [by eapply stages_rendered |].
    destruct (check_mode p) eqn:Hmode.
    { destruct (dest_path p) as [[| c dest'] |];
        by rewrite (main_no_write _ _ _ _ _ Hs) by (by left). }
    destruct (dest_path p) as [[| c dest'] |] eqn:Hdest.
    + by rewrite (main_no_write _ _ _ _ _ Hs) by (by right; right).
    + cbv zeta.
      rewrite (main_write _ _ _ _ _ _ Hs Hmode Hdest) by done.
      rewrite write_dest_eq. repeat case_match; by simplify_eq.
    + by rewrite (main_no_write _ _ _ _ _ Hs) by (by right; left).
  - by apply main_raise with fs.
  - by apply main_sysexit with fs.
Qed.


(** *** Universal newlines *)

Lemma universal_newlines_cr_free (s : string) :
  cr_free (universal_newlines s) = true.
Proof.
  induction s as [| c rest IH]; [done |]. simpl.
  destruct (Ascii.eqb c "013") eqn:Hc.
  - destruct rest as [| c' rest']; [done |].
    destruct (Ascii.eqb c' "010") eqn:Hc'; [| done].
    simpl in IH. apply Ascii.eqb_eq in Hc'. subst c'. simpl in IH. done.
  - simpl. by rewrite Hc.
Qed.

Lemma cr_free_universal_newlines (s : string) :
  cr_free s = true -> universal_newlines s = s.
Proof.
  induction s as [| c rest IH]; [done |]. simpl.
  destruct (Ascii.eqb c "013"); [done |]. simpl. intros Hrest.
  by rewrite IH.
Qed.

Lemma universal_newlines_idemp (s : string) :
  universal_newlines (universal_newlines s) = universal_newlines s.
Proof. apply cr_free_universal_newlines, universal_newlines_cr_free. Qed.

(** A text with a carriage return does not read back as itself. *)
Lemma universal_newlines_changes (s : string) :
  cr_free s = false -> universal_newlines s <> s.
Proof.
  intros Hcr Heq. by rewrite <- Heq, universal_newlines_cr_free in Hcr.
Qed.
End Pipeline.

(** ** The renderer and the run *)

Section Run.
Context `{Jinja2} `{TTP} `{OS}.

Lemma stages_returned (p : params) (fs : filesystem)
    (cfg csrc tmpl tsrc : string) (raw : list pyval) (data : pyval)
    (returned : returned) (text : string) (ign kept : pyval) :
  config_input p fs = inr (cfg, csrc) ->
  template_input p fs = inr (tmpl, tsrc) ->
  parse_configuration cfg tmpl = inr raw ->
  normalise raw = inr data ->
  render_configuration data tmpl (keys_ignore p) = inr returned ->
  unpack3 returned = inr (text, ign, kept) ->
  stages p initial_result fs
  = (Ret text, set_rendered text ign kept (loaded p csrc tsrc), fs).
Proof.
  intros Hc Ht Hp Hn Hr Hu. rewrite stages_eq, Hc, Ht. cbv zeta.
  rewrite Hp. destruct raw as [| first raw]; [done |].
  by rewrite Hn, Hr, Hu.
Qed.

Lemma stages_stage_fails (p : params) (fs : filesystem) (msg : message)
    (r : result) :
  stage_fails p fs msg r ->
  match msg with
  | StrOf e => stages p initial_result fs = (Raise e, r, fs)
  | Text text => stages p initial_result fs = (SysExit text, r, fs)
  end.
Proof.
  intros Hfail. rewrite stages_eq.
  destruct Hfail as [e Hc | cfg csrc e Hc Ht | cfg csrc tmpl tsrc e Hc Ht Hp
                    | cfg csrc tmpl tsrc Hc Ht Hp
                    | cfg csrc tmpl tsrc raw e Hc Ht Hp Hne Hn
                    | cfg csrc tmpl tsrc raw data e Hc Ht Hp Hn Hr
                    | cfg csrc tmpl tsrc raw data returned e Hc Ht Hp Hn Hr Hu];
    rewrite Hc; try (rewrite Ht; cbv zeta); try rewrite Hp; try done.
  - destruct raw; [done |]. by rewrite Hn.
  - destruct raw; [done |]. by rewrite Hn, Hr.
  - destruct raw; [done |]. by rewrite Hn, Hr, Hu.
Qed.

Lemma main_stage_fails (p : params) (fs : filesystem) (msg : message)
    (r : result) :
  stage_fails p fs msg r -> main p fs = (fail_json msg r, fs).
Proof.
  intros Hfail. apply stages_stage_fails in Hfail.
  destruct msg as [text | e].
  - by apply main_sysexit with fs.
  - by apply main_raise with fs.
Qed.

(** A run whose stages end normally and whose destination can take the
    text ends by [exit_json] with that text. *)
Lemma main_completes (p : params) (fs fs' : filesystem) (text : string)
    (r : result) :
  stages p initial_result fs = (Ret text, r, fs') ->
  dest_writable p fs ->
  exists b fs'', main p fs = (exit_json (set_changed b r), fs'').
Proof.
  intros Hs Hw. unfold dest_writable in Hw.
  destruct (check_mode p) eqn:Hmode.
  { exists false, fs. rewrite (main_no_write _ _ _ _ _ Hs) by (by left).
    f_equal. pose proof (stages_changed p initial_result fs) as Hch.
    rewrite Hs in Hch. simpl in Hch. by destruct r; simpl in *; subst. }
  pose proof (stages_changed p initial_result fs) as Hch.
  rewrite Hs in Hch. simpl in Hch.
  destruct (dest_path p) as [[| c dest] |] eqn:Hdest.
  - exists false, fs. rewrite (main_no_write _ _ _ _ _ Hs) by (by right; right).
    by destruct r; simpl in *; subst.
  - destruct Hw as (Hdir & Hread & Hcan & Hwrite).
    rewrite (main_write _ _ _ _ _ _ Hs Hmode Hdest) by done.
    rewrite write_dest_eq, Hread, Hcan, Hwrite.
    destruct (fs !! String c dest) as [[stored |] |]; [| done |].
    + destruct (String.eqb (universal_newlines stored) text); by eexists _, _.
    + by eexists _, _.
  - exists false, fs. rewrite (main_no_write _ _ _ _ _ Hs) by (by right; left).
    by destruct r; simpl in *; subst.
Qed.

(** *** The renderer when nothing is kept *)

Lemma render_configuration_falsy (tmpl : string) (t : compiled)
    (parsed_data keys : pyval) :
  Template tmpl = inr t ->
  truthy parsed_data = false ->
  render_configuration parsed_data tmpl keys = inr (RetStr tmpl).
Proof. intros Ht Hf. unfold render_configuration. by rewrite Ht, Hf. Qed.

Lemma render_configuration_all_ignored (tmpl : string) (t : compiled)
    (keys : pyval) (prefixes : list string) (recs : list record) :
  Template tmpl = inr t ->
  iter keys = inr (PStr <$> prefixes) ->
  truthy keys = true ->
  recs <> [] ->
  Forall (starts_with_any prefixes) recs ->
  render_configuration (PList (PDict <$> recs)) tmpl keys
  = inr (RetTuple EmptyString (PDict <$> recs) []).
Proof.
  intros Ht Hiter Htruthy Hne Hall.
  destruct (render_configuration_partition tmpl t keys prefixes recs Ht Hiter)
    as (parts & Hparts & ->); [congruence | done | |].
  { intros r Hr Hnot. destruct Hnot. by eapply Forall_forall in Hall. }
  assert (Hkept : filter (fun r => ¬ starts_with_any prefixes r) recs = []).
  { clear -Hall. induction Hall as [| r recs Hr Hall IH]; [done |].
    rewrite filter_cons_False by tauto. done. }
  assert (Hign : filter (starts_with_any prefixes) recs = recs).
  { clear -Hall. induction Hall as [| r recs Hr Hall IH]; [done |].
    rewrite filter_cons_True by done. by rewrite IH. }
  rewrite Hkept, Hign in *. by inversion Hparts.
Qed.

(** C1, as the code has it.  With no parsed data the renderer returns the
    template text as it is.  With a list of records of which every one is
    ignored, the rendered text is the empty text, all records are reported
    as ignored and none as kept; a run in which that list of records is the
    parsed data line 356 hands to the renderer completes with that empty
    text whenever its destination can take it.  (A parse that found a
    single record hands over a dict, not a list of records; the statement
    does not cover it.) *)
Theorem vacuous_render (tmpl : string) (t : compiled) (keys : pyval) :
  Template tmpl = inr t ->
  (forall parsed_data,
      truthy parsed_data = false ->
      render_configuration parsed_data tmpl keys = inr (RetStr tmpl))
  /\ (forall prefixes recs,
        iter keys = inr (PStr <$> prefixes) ->
        truthy keys = true ->
        recs <> [] ->
        Forall (starts_with_any prefixes) recs ->
        render_configuration (PList (PDict <$> recs)) tmpl keys
        = inr (RetTuple EmptyString (PDict <$> recs) [])
        /\ forall p fs cfg csrc tsrc raw,
            config_input p fs = inr (cfg, csrc) ->
            template_input p fs = inr (tmpl, tsrc) ->
            parse_configuration cfg tmpl = inr raw ->
            normalise raw = inr (PList (PDict <$> recs)) ->
            keys_ignore p = keys ->
            dest_writable p fs ->
            exists b fs',
              main p fs
              = (exit_json
                   (set_changed b
                      (set_rendered EmptyString (PList (PDict <$> recs))
                         (PList []) (loaded p csrc tsrc))),
                 fs')).
Proof.
  intros Ht. split.
  - intros parsed_data Hf. by apply render_configuration_falsy with t.
  - intros prefixes recs Hiter Htruthy Hne Hall.
    pose proof (render_configuration_all_ignored tmpl t keys prefixes recs
                  Ht Hiter Htruthy Hne Hall) as Hr.
    split; [done |].
    intros p fs cfg csrc tsrc raw Hc Htm Hp Hn Hk Hw. subst keys.
    eapply main_completes; [| done].
    by eapply stages_returned.
Qed.

(** *** The renderer when rendering a record raises *)


Lemma render_loop_cons (t : compiled) (keys entry : pyval)
    (entries : list pyval) parts ign kept :
  render_loop t (entry :: entries) keys parts ign kept
  = bind_exn (if truthy keys then entry_ignored entry keys else inr false)
      (fun skip : bool =>
         if skip
         then render_loop t entries keys parts (ign ++ [entry]) kept
         else bind_exn (render_entry t entry)
                (fun part =>
                   render_loop t entries keys (parts ++ [part]) ign
                     (kept ++ [entry]))).
Proof. done. Qed.




(** *** Check mode *)

(** C4, as the code has it.  In check mode the file system is left as it
    was and [changed] is reported false, whatever the destination holds. *)
Theorem check_mode_writes_nothing (p : params) (fs : filesystem) :
  check_mode p = true ->
  (main p fs).2 = fs /\ changed (result_of (main p fs).1) = false.
Proof.
  intros Hmode.
  pose proof (stages_changed p initial_result fs) as Hch.
  destruct (stages p initial_result fs) as [[[text | e | msg] r] fs'] eqn:Hs;
    simpl in Hch.
  - rewrite (main_no_write _ _ _ _ _ Hs) by (by left). done.
  - by rewrite (main_raise _ _ _ _ _ Hs).
  - by rewrite (main_sysexit _ _ _ _ _ Hs).
Qed.

(** *** The writer *)

(** C5, as the code has it.  A run out of check mode with a destination
    path, whose stages gave the text [text].  When the path does not exist
    the text is written and [changed] is true.  When the path holds a file
    that reads, in text mode, as that text (a carriage return, alone or
    before a line feed, being read as a line feed), nothing is written and
    [changed] is false.  When it reads as another text the file is
    overwritten and [changed] is true.  The file has to be readable for the
    comparison, and each write assumes that the path can be opened for
    writing and that the write does not break. *)
Theorem writer_cases (p : params) (fs : filesystem) (dest text : string)
    (r : result) :
  check_mode p = false ->
  dest_path p = Some dest ->
  dest <> EmptyString ->
  stages p initial_result fs = (Ret text, r, fs) ->
  (fs !! dest = None ->
   can_write dest = true -> write_error dest text = None ->
   main p fs = (exit_json (set_changed true r), <[dest := File text]> fs))
  /\ (forall stored,
        fs !! dest = Some (File stored) -> read_error dest = None ->
        universal_newlines stored = text ->
        main p fs = (exit_json (set_changed false r), fs))
  /\ (forall stored,
        fs !! dest = Some (File stored) -> read_error dest = None ->
        universal_newlines stored <> text ->
        can_write dest = true -> write_error dest text = None ->
        main p fs = (exit_json (set_changed true r), <[dest := File text]> fs)).
Proof.
  intros Hmode Hdest Hne Hs.
  rewrite (main_write _ _ _ _ _ _ Hs Hmode Hdest Hne), write_dest_eq.
  split; [| split].
  - intros -> -> ->. done.
  - intros stored -> -> <-. by rewrite String.eqb_refl.
  - intros stored -> -> Hdiff -> ->.
    by rewrite (proj2 (String.eqb_neq (universal_newlines stored) text) Hdiff).
Qed.


(** *** Failures *)

(** [stage_fails] lists every way the stages can end without a text. *)
Lemma stage_fails_complete (p : params) (fs : filesystem) :
  (exists text r, stages p initial_result fs = (Ret text, r, fs))
  \/ (exists msg r, stage_fails p fs msg r).
Proof.
  rewrite stages_eq.
  destruct (config_input p fs) as [e | [cfg csrc]] eqn:Hc.
  { right. eexists _, _. by apply config_fails. }
  destruct (template_input p fs) as [e | [tmpl tsrc]] eqn:Ht.
  { right. eexists _, _. by eapply template_fails. }
  cbv zeta.
  destruct (parse_configuration cfg tmpl) as [e | raw] eqn:Hp.
  { right. eexists _, _. by eapply parse_fails. }
  destruct raw as [| first raw].
  { right. eexists _, _. by eapply no_match. }
  destruct (normalise (first :: raw)) as [e | data] eqn:Hn.
  { right. eexists _, _. by eapply normalise_fails. }
  destruct (render_configuration data tmpl (keys_ignore p))
    as [e | returned] eqn:Hr.
  { right. eexists _, _. by eapply render_fails. }
  destruct (unpack3 returned) as [e | [[text ign] kept]] eqn:Hu.
  { right. eexists _, _. by eapply unpack_fails. }
  left. by eexists _, _.
Qed.

(** Lines 352-353.  When both inputs are loaded and the parser's result is
    the empty list, the run fails with the no-match message and writes
    nothing.  That differs from a run whose parsed data is a list of records
    which are all ignored: such a run ends by [exit_json], with no kept
    record and the empty text, whenever its destination can take the
    text. *)
Theorem empty_parse_fails (p : params) (fs : filesystem)
    (cfg csrc tmpl tsrc : string) :
  config_input p fs = inr (cfg, csrc) ->
  template_input p fs = inr (tmpl, tsrc) ->
  (parse_configuration cfg tmpl = inr [] ->
   main p fs = (fail_json (Text no_match_msg) (loaded p csrc tsrc), fs))
  /\ (forall raw recs prefixes t,
        parse_configuration cfg tmpl = inr raw ->
        normalise raw = inr (PList (PDict <$> recs)) ->
        recs <> [] ->
        keys_ignore p = PList (PStr <$> prefixes) ->
        Template tmpl = inr t ->
        Forall (starts_with_any prefixes) recs ->
        dest_writable p fs ->
        exists b fs',
          main p fs
          = (exit_json
               (set_changed b
                  (set_rendered EmptyString (PList (PDict <$> recs))
                     (PList []) (loaded p csrc tsrc))),
             fs')).
Proof.
  intros Hc Htm. split.
  - intros Hp. apply main_stage_fails. by eapply no_match.
  - intros raw recs prefixes t Hp Hn Hne Hk Ht Hall Hw.
    assert (Htruthy : truthy (PList (PStr <$> prefixes)) = true).
    { destruct prefixes; [| done]. destruct recs as [| r recs]; [done |].
      apply Forall_cons_1 in Hall as [Hr _]. by apply starts_with_none in Hr. }
    assert (Hr : render_configuration (PList (PDict <$> recs)) tmpl
                   (keys_ignore p)
                 = inr (RetTuple EmptyString (PDict <$> recs) [])).
    { rewrite Hk. by eapply render_configuration_all_ignored. }
    eapply main_completes; [| done].
    by eapply stages_returned.
Qed.

(** C8. When a stage before the writer fails (loading either input,
    parsing, normalising, filtering or rendering, unpacking), the run ends
    by [fail_json] with that stage's message and the file system is as it
    was. *)
Theorem stage_failure_writes_nothing (p : params) (fs : filesystem)
    (msg : message) (r : result) :
  stage_fails p fs msg r -> main p fs = (fail_json msg r, fs).
Proof.
  intros Hfail. pose proof (stages_stage_fails p fs msg r Hfail) as Hs.
  destruct msg as [text | e].
  - by apply main_sysexit with fs.
  - by apply main_raise with fs.
Qed.

(** *** Unpacking the template text *)

Lemma length_chars (s : string) : length (chars s) = String.length s.
Proof. induction s as [| c s IH]; [done |]. simpl. by rewrite IH. Qed.

Lemma unpack3_str (s : string) :
  String.length s <> 3 ->
  unpack3 (RetStr s) = inl (UnpackError (String.length s)).
Proof.
  intros Hlen. rewrite <- length_chars in *. unfold unpack3.
  destruct (chars s) as [| a [| b [| c [| d cs]]]]; try done.
Qed.

(** Lines 283 and 360.  With falsy parsed data (and a template that
    compiles) [render_configuration] returns the template text alone.
    Unpacking it into three fails, and the run aborts with that error and
    writes nothing, whenever the text does not have exactly three
    characters. *)
Theorem falsy_data_breaks_unpacking (p : params) (fs : filesystem)
    (cfg csrc tmpl tsrc : string) (raw : list pyval) (data : pyval)
    (t : compiled) :
  config_input p fs = inr (cfg, csrc) ->
  template_input p fs = inr (tmpl, tsrc) ->
  parse_configuration cfg tmpl = inr raw ->
  normalise raw = inr data ->
  truthy data = false ->
  Template tmpl = inr t ->
  render_configuration data tmpl (keys_ignore p) = inr (RetStr tmpl)
  /\ (String.length tmpl <> 3 ->
      unpack3 (RetStr tmpl) = inl (UnpackError (String.length tmpl))
      /\ main p fs
         = (fail_json (StrOf (UnpackError (String.length tmpl)))
              (loaded p csrc tsrc), fs)).
Proof.
  intros Hc Htm Hp Hn Hf Ht.
  pose proof (render_configuration_falsy tmpl t data (keys_ignore p) Ht Hf)
    as Hr.
  split; [done |]. intros Hlen.
  pose proof (unpack3_str tmpl Hlen) as Hu. split; [done |].
  apply main_stage_fails. by eapply unpack_fails.
Qed.

(** A text of exactly three characters does unpack, into its characters. *)
Lemma unpack3_three (a b c : ascii) :
  unpack3 (RetStr (String a (String b (String c EmptyString))))
  = inr (String a EmptyString, PStr (String b EmptyString),
         PStr (String c EmptyString)).
Proof. done. Qed.
End Run.

(** ** The claims on the sample inputs *)

Section Samples.
Import Sample.

Lemma default_render_total (t : list Jinja2Model.piece) (r : record) :
  exists part, @render Jinja2Model.default t r = inr part.
Proof.
  simpl. induction t as [| p t [rest IH]]; [by eexists |].
  simpl. destruct p as [text | name]; simpl.
  - rewrite IH. by eexists.
  - destruct (Jinja2Model.lookup name r); rewrite IH; by eexists.
Qed.

(** Scenarios A and B of the specification. *)
Example scenario_A :
  @render_configuration Jinja2Model.default (PList [PDict gi0; PDict gi1])
    interface_template (PList [])
  = inr (RetTuple rendered_interfaces [] [PDict gi0; PDict gi1]).
Proof. reflexivity. Qed.

Example scenario_B :
  @render_configuration Jinja2Model.default (PList [PDict gi0; PDict gi1])
    interface_template (PList [PStr "Gi0/0"])
  = inr (RetTuple ("interface Gi0/1" ++ nl ++ " no ip proxy-arp")%string
           [PDict gi0] [PDict gi1]).
Proof. reflexivity. Qed.

(** A key that is not a string raises once a value has missed the keys
    before it, and not when an earlier key already matched. *)
Example non_string_key :
  entry_ignored (PDict gi0) (PList [PStr "Gi"; PScalar (SInt 5)]) = inr true
  /\ entry_ignored (PDict gi0) (PList [PStr "Vlan"; PScalar (SInt 5)])
     = inl TypeError.
Proof. split; reflexivity. Qed.

(** A destination that cannot be opened for writing: the run fails and the
    file system is as it was. *)
Example unwritable_destination :
  @main Jinja2Model.default two_blocks read_only plain_run no_files
  = (fail_json (StrOf (OSError "out.cfg")) plain_result, no_files).
Proof. reflexivity. Qed.

(** C1 does not hold as stated: with its one record ignored nothing is
    kept, and the rendered text is empty, not the template text. *)
Lemma all_ignored_renders_empty_text :
  @render_configuration Jinja2Model.default (PList [PDict gi0])
    interface_template (PList [PStr "Gi"])
  = inr (RetTuple EmptyString [PDict gi0] [])
  /\ EmptyString <> interface_template.
Proof. split; [reflexivity | discriminate]. Qed.

Lemma vacuous_render_witness :
  @Template Jinja2Model.default interface_template = inr interface_pieces
  /\ @render_configuration Jinja2Model.default (PList []) interface_template
       (PList [PStr "Gi"])
     = inr (RetStr interface_template)
  /\ @render_configuration Jinja2Model.default (PList (PDict <$> [gi0; gi1]))
       interface_template (PList [PStr "Gi"])
     = inr (RetTuple EmptyString (PDict <$> [gi0; gi1]) [])
  /\ exists b fs',
       @main Jinja2Model.default two_blocks permissive ignoring_run no_files
       = (exit_json
            (set_changed b
               (set_rendered EmptyString (PList (PDict <$> [gi0; gi1]))
                  (PList []) (loaded ignoring_run "inline" "inline"))),
          fs').
Proof.
  split; [reflexivity |].
  destruct (@vacuous_render Jinja2Model.default two_blocks permissive
              interface_template interface_pieces (PList [PStr "Gi"]) eq_refl)
    as [Hfalsy Hall].
  split; [apply Hfalsy; reflexivity |].
  destruct (Hall ["Gi"] [gi0; gi1]) as [Hreturned Hrun];
    [reflexivity | reflexivity | discriminate | |].
  { apply (bool_decide_unpack _). vm_compute. exact I. }
  split; [exact Hreturned |].
  apply (Hrun ignoring_run no_files config_text "inline" "inline"
           [PList [PList [PDict gi0; PDict gi1]]]);
    try reflexivity.
  repeat split; try discriminate; reflexivity.
Defined.



Lemma filter_partition_witness :
  @Template Jinja2Model.default interface_template = inr interface_pieces
  /\ match @render_configuration Jinja2Model.default
             (PList (PDict <$> [gi0; gi1])) interface_template
             (PList (PStr <$> ["Gi0/0"])) with
     | inr (RetTuple _ ignored kept) =>
         ignored = PDict <$> filter (starts_with_any ["Gi0/0"]) [gi0; gi1]
         /\ kept = PDict <$> filter (fun r => ¬ starts_with_any ["Gi0/0"] r)
                                [gi0; gi1]
         /\ (forall r, r ∈ [gi0; gi1] ->
               (PDict r ∈ ignored <-> starts_with_any ["Gi0/0"] r)
               /\ (PDict r ∈ kept <-> ¬ starts_with_any ["Gi0/0"] r))
         /\ (["Gi0/0"] = [] -> ignored = [] /\ kept = PDict <$> [gi0; gi1])
     | inr (RetStr _) => [gi0; gi1] = []
     | inl _ => False
     end.
Proof.
  split; [reflexivity |].
  apply (@filter_partition Jinja2Model.default interface_template
           interface_pieces [gi0; gi1] ["Gi0/0"]); [reflexivity |].
  intros r _ _. apply default_render_total.
Defined.

(** The characters of ["xG"] ignore both records, which the string as a
    whole would not. *)
Example characters_not_the_string :
  filter (starts_with_any (chars "xG")) [gi0; gi1] = [gi0; gi1]
  /\ filter (starts_with_any ["xG"]) [gi0; gi1] = [].
Proof. split; reflexivity. Qed.


(** C4 does not hold as stated: on the same inputs and the same (absent)
    destination, the run in check mode reports [changed] false and the run
    out of check mode reports it true. *)
Lemma check_mode_reports_unchanged :
  changed (result_of (@main Jinja2Model.default two_blocks permissive
                        (run interface_template (PList []) true)
                        no_files).1) = false
  /\ changed (result_of (@main Jinja2Model.default two_blocks permissive
                           (run interface_template (PList []) false)
                           no_files).1) = true.
Proof. split; vm_compute; reflexivity. Qed.

Lemma check_mode_writes_nothing_witness :
  check_mode (run interface_template (PList []) true) = true
  /\ (@main Jinja2Model.default two_blocks permissive
        (run interface_template (PList []) true) no_files).2 = no_files
  /\ changed (result_of (@main Jinja2Model.default two_blocks permissive
                           (run interface_template (PList []) true)
                           no_files).1) = false.
Proof.
  split; [reflexivity |].
  apply (@check_mode_writes_nothing Jinja2Model.default two_blocks permissive).
  reflexivity.
Defined.

(** C5 does not hold as stated.  The destination holds exactly the rendered
    text, which is a carriage return, and the run still writes it and
    reports [changed] true: read in text mode the file gives a line feed.
    And a destination stored with CRLF line ends is not the rendered text
    byte for byte, yet the run leaves it as it is and reports [changed]
    false. *)
Lemma text_mode_comparison :
  cr_file !! "out.cfg" = Some (File (rendered_config cr_result))
  /\ @main Jinja2Model.default empty_result permissive cr_run cr_file
     = (exit_json (set_changed true cr_result), cr_file)
  /\ crlf_file !! "out.cfg" <> Some (File (rendered_config plain_result))
  /\ @main Jinja2Model.default two_blocks permissive plain_run crlf_file
     = (exit_json (set_changed false plain_result), crlf_file).
Proof. repeat split; try discriminate; vm_compute; reflexivity. Qed.

Lemma writer_cases_witness :
  @main Jinja2Model.default two_blocks permissive plain_run no_files
  = (exit_json (set_changed true plain_result), same_file)
  /\ @main Jinja2Model.default two_blocks permissive plain_run same_file
     = (exit_json (set_changed false plain_result), same_file)
  /\ @main Jinja2Model.default two_blocks permissive plain_run crlf_file
     = (exit_json (set_changed false plain_result), crlf_file)
  /\ @main Jinja2Model.default two_blocks permissive plain_run other_file
     = (exit_json (set_changed true plain_result),
        <["out.cfg" := File rendered_interfaces]> other_file).
Proof.
  pose proof (fun fs Hs =>
                @writer_cases Jinja2Model.default two_blocks permissive
                  plain_run fs "out.cfg" rendered_interfaces plain_result
                  eq_refl eq_refl ltac:(discriminate) Hs) as Hcases.
  split; [| split; [| split]].
  - apply (Hcases no_files eq_refl); reflexivity.
  - apply (proj1 (proj2 (Hcases same_file eq_refl)) rendered_interfaces);
      reflexivity.
  - eapply (proj1 (proj2 (Hcases crlf_file eq_refl))); reflexivity.
  - apply (proj2 (proj2 (Hcases other_file eq_refl)) "interface Gi0/9");
      [reflexivity | reflexivity | discriminate | reflexivity | reflexivity].
Defined.



Lemma empty_parse_fails_witness :
  @parse_configuration no_result config_text interface_template = inr []
  /\ @main Jinja2Model.default no_result permissive plain_run no_files
     = (fail_json (Text no_match_msg) (loaded plain_run "inline" "inline"),
        no_files)
  /\ exists b fs',
       @main Jinja2Model.default two_blocks permissive ignoring_run no_files
       = (exit_json
            (set_changed b
               (set_rendered EmptyString (PList (PDict <$> [gi0; gi1]))
                  (PList []) (loaded ignoring_run "inline" "inline"))),
          fs').
Proof.
  split; [reflexivity |]. split.
  - apply (@empty_parse_fails Jinja2Model.default no_result permissive
             plain_run no_files config_text "inline" interface_template
             "inline" eq_refl eq_refl).
    reflexivity.
  - apply (proj2 (@empty_parse_fails Jinja2Model.default two_blocks permissive
                    ignoring_run no_files config_text "inline"
                    interface_template "inline" eq_refl eq_refl)
             [PList [PList [PDict gi0; PDict gi1]]] [gi0; gi1] ["Gi"]
             interface_pieces);
      try reflexivity; try discriminate.
    + apply (bool_decide_unpack _). vm_compute. exact I.
    + repeat split; try discriminate; reflexivity.
Defined.

Lemma stage_failure_writes_nothing_witness :
  @stage_fails Jinja2Model.default two_blocks permissive
    (run_from_file "missing.cfg") device_files (StrOf missing_error)
    initial_result
  /\ @main Jinja2Model.default two_blocks permissive
       (run_from_file "missing.cfg") device_files
     = (fail_json (StrOf missing_error) initial_result, device_files).
Proof.
  assert (Hfails : @stage_fails Jinja2Model.default two_blocks permissive
                     (run_from_file "missing.cfg") device_files
                     (StrOf missing_error) initial_result)
    by (apply config_fails; vm_compute; reflexivity).
  split; [exact Hfails |].
  exact (@stage_failure_writes_nothing Jinja2Model.default two_blocks
           permissive (run_from_file "missing.cfg") device_files
           (StrOf missing_error) initial_result Hfails).
Defined.

(** C7.  Zero matches are not reported as such.  On a configuration in
    which no line matches the template the parser answers with one empty
    group for its one input, which is not an empty list: the check of line
    352 lets it pass, line 356 hands the empty group to the renderer, the
    renderer returns the bare template text for it, and the run fails on
    the unpacking of line 360 with that error, not with the no-match
    message of line 353. *)
Theorem zero_matches_pass_the_check :
  @parse_configuration empty_result no_match_config interface_template
  = inr [PList [PDict []]]
  /\ normalise [PList [PDict []]] = inr (PDict [])
  /\ @render_configuration Jinja2Model.default (PDict []) interface_template
       (keys_ignore no_match_run)
     = inr (RetStr interface_template)
  /\ @main Jinja2Model.default empty_result permissive no_match_run no_files
     = (fail_json (StrOf (UnpackError 39))
          (loaded no_match_run "inline" "inline"), no_files)
  /\ StrOf (UnpackError 39) <> Text no_match_msg.
Proof. repeat split; try discriminate; vm_compute; reflexivity. Qed.

(** C9.  The slip of line 283 at work on a template text of three
    characters and a parse that found nothing: the renderer returns the
    bare text instead of the triple of line 298, line 360 unpacks it into
    its three characters, and the run does not abort: it reports the first
    character as the rendered configuration, the other two as the ignored
    and the kept records, and writes the first one to the destination. *)
Theorem three_characters_unpack :
  @render_configuration Jinja2Model.default (PDict []) "abc" (PStr "")
  = inr (RetStr "abc")
  /\ unpack3 (RetStr "abc") = inr ("a", PStr "b", PStr "c")
  /\ failed (@main Jinja2Model.default empty_result permissive
               (run "abc" (PStr "") false) no_files).1 = false
  /\ (@main Jinja2Model.default empty_result permissive
        (run "abc" (PStr "") false) no_files).2 !! "out.cfg"
     = Some (File "a")
  /\ result_of (@main Jinja2Model.default empty_result permissive
                  (run "abc" (PStr "") false) no_files).1
     = set_changed true
         (set_rendered "a" (PStr "b") (PStr "c")
            (loaded (run "abc" (PStr "") false) "inline" "inline")).
Proof. repeat split; vm_compute; reflexivity. Qed.

Lemma falsy_data_breaks_unpacking_witness :
  truthy (PDict []) = false
  /\ String.length interface_template <> 3
  /\ @render_configuration Jinja2Model.default (PDict []) interface_template
       (keys_ignore plain_run)
     = inr (RetStr interface_template)
  /\ @main Jinja2Model.default empty_result permissive plain_run no_files
     = (fail_json (StrOf (UnpackError (String.length interface_template)))
          (loaded plain_run "inline" "inline"), no_files).
Proof.
  split; [reflexivity |].
  assert (Hlen : String.length interface_template <> 3) by discriminate.
  split; [exact Hlen |].
  destruct (@falsy_data_breaks_unpacking Jinja2Model.default empty_result
              permissive plain_run no_files config_text "inline"
              interface_template "inline" [PList [PDict []]] (PDict [])
              interface_pieces eq_refl eq_refl eq_refl eq_refl eq_refl eq_refl)
    as [Hreturned Hrun].
  split; [exact Hreturned |]. exact (proj2 (Hrun Hlen)).
Defined.
End Samples.

(** ** More on the renderer *)

Section Renderer.
Context `{Jinja2}.

(** What the loop appends to its three lists. *)
Lemma render_loop_returns (t : compiled) (keys : pyval) (entries : list pyval) :
  forall parts ign kept parts' ign' kept',
    render_loop t entries keys parts ign kept = inr (parts', ign', kept') ->
    exists ps i k,
      parts' = parts ++ ps /\ ign' = ign ++ i /\ kept' = kept ++ k
      /\ i `sublist_of` entries /\ k `sublist_of` entries
      /\ i ++ k ≡ₚ entries
      /\ Forall2 (fun entry part => render_entry t entry = inr part) k ps
      /\ Forall is_dict entries
      /\ (truthy keys = false -> i = []).
Proof.
  induction entries as [| entry entries IH];
    intros parts ign kept parts' ign' kept' Hloop.
  - simpl in Hloop. simplify_eq. exists [], [], [].
    rewrite !app_nil_r. by repeat split.
  - rewrite render_loop_cons in Hloop.
    destruct (if truthy keys then entry_ignored entry keys else inr false)
      as [e | skip] eqn:Hskip; [done |]. cbn [bind_exn] in Hloop.
    destruct skip.
    + apply IH in Hloop
        as (ps & i & k & -> & -> & -> & Hi & Hk & Hperm & Hps & Hdict & Hfalsy).
      assert (Htruthy : truthy keys = true)
        by (destruct (truthy keys); [done | by simplify_eq]).
      rewrite Htruthy in Hskip.
      exists ps, (entry :: i), k. rewrite <- !app_assoc.
      repeat split; try done.
      * by apply sublist_skip.
      * by apply sublist_cons.
      * simpl. by rewrite Hperm.
      * constructor; [| done]. unfold entry_ignored in Hskip.
        by destruct entry.
      * intros Hf. congruence.
    + destruct (render_entry t entry) as [e | part] eqn:Hpart; [done |].
      cbn [bind_exn] in Hloop.
      apply IH in Hloop
        as (ps & i & k & -> & -> & -> & Hi & Hk & Hperm & Hps & Hdict & Hfalsy).
      exists (part :: ps), i, (entry :: k). rewrite <- !app_assoc.
      repeat split; try done.
      * by apply sublist_cons.
      * by apply sublist_skip.
      * rewrite <- Hperm. by rewrite Permutation_middle.
      * by constructor.
      * constructor; [| done]. unfold render_entry in Hpart.
        by destruct entry.
Qed.

Lemma sublist_same_length {A} (l1 l2 : list A) :
  l1 `sublist_of` l2 -> length l2 <= length l1 -> l1 = l2.
Proof.
  induction 1 as [| x l1 l2 Hsub IH | x l1 l2 Hsub IH]; intros Hlen.
  - done.
  - f_equal. apply IH. simpl in Hlen. lia.
  - apply sublist_length in Hsub. simpl in Hlen. lia.
Qed.

(** X1. Whenever [render_configuration] returns its triple for a list of
    entries, no entry was dropped or repeated: the ignored and the kept
    entries are each a subsequence of the entries, together they are all of
    them, and every entry is a dict. *)
Theorem entries_split_in_order (entries : list pyval) (tmpl : string)
    (keys : pyval) (text : string) (ign kept : list pyval) :
  render_configuration (PList entries) tmpl keys
  = inr (RetTuple text ign kept) ->
  ign `sublist_of` entries
  /\ kept `sublist_of` entries
  /\ ign ++ kept ≡ₚ entries
  /\ length ign + length kept = length entries
  /\ Forall is_dict entries.
Proof.
  unfold render_configuration. intros Hr.
  destruct (Template tmpl) as [e | t]; [done |]. cbn [bind_exn] in Hr.
  destruct (negb (truthy (PList entries))); [done |]. cbn [iter bind_exn] in Hr.
  destruct (render_loop t entries keys [] [] [])
    as [e | [[parts' ign'] kept']] eqn:Hloop; [done |].
  cbn [bind_exn] in Hr. simplify_eq.
  apply render_loop_returns in Hloop
    as (ps & i & k & -> & -> & -> & Hi & Hk & Hperm & Hps & Hdict & Hfalsy).
  simpl. repeat split; try done.
  by rewrite <- length_app, Hperm.
Qed.

(** X2. The rendered text of the triple is the renderings of the kept
    entries, one for each and in their order, joined by newlines. *)
Theorem rendered_text_joins_kept (entries : list pyval) (tmpl : string)
    (keys : pyval) (text : string) (ign kept : list pyval) :
  render_configuration (PList entries) tmpl keys
  = inr (RetTuple text ign kept) ->
  exists t parts,
    Template tmpl = inr t
    /\ Forall2 (fun entry part => render_entry t entry = inr part) kept parts
    /\ text = join_lines parts.
Proof.
  unfold render_configuration. intros Hr.
  destruct (Template tmpl) as [e | t]; [done |]. cbn [bind_exn] in Hr.
  destruct (negb (truthy (PList entries))); [done |]. cbn [iter bind_exn] in Hr.
  destruct (render_loop t entries keys [] [] [])
    as [e | [[parts' ign'] kept']] eqn:Hloop; [done |].
  cbn [bind_exn] in Hr. simplify_eq.
  apply render_loop_returns in Hloop
    as (ps & i & k & -> & -> & -> & Hi & Hk & Hperm & Hps & Hdict & Hfalsy).
  by exists t, ps.
Qed.

(** X3. When the first entry the loop visits is not a dict, the call
    raises: [AttributeError] from [entry.values()] when [keys_ignore] is
    truthy, [TypeError] from [render( **entry)] otherwise.  Parsed data
    that is itself a non-empty dict is such a case, its entries being its
    keys. *)
Theorem first_entry_not_a_dict_raises (parsed_data : pyval) (tmpl : string)
    (t : compiled) (keys entry : pyval) (rest : list pyval) :
  Template tmpl = inr t ->
  iter parsed_data = inr (entry :: rest) ->
  truthy parsed_data = true ->
  ¬ is_dict entry ->
  render_configuration parsed_data tmpl keys
  = inl (if truthy keys then AttributeError else TypeError).
Proof.
  intros Ht Hiter Htruthy Hdict. unfold render_configuration.
  rewrite Ht, Htruthy, Hiter. cbn [bind_exn negb]. rewrite render_loop_cons.
  destruct (truthy keys).
  - unfold entry_ignored. by destruct entry.
  - cbn [bind_exn]. unfold render_entry. by destruct entry.
Qed.

(** X4. With a falsy [keys_ignore] (the default empty text, an empty list,
    [None]) nothing is ignored: whenever the triple is returned, every entry
    is kept. *)
Theorem falsy_keys_keep_everything (entries : list pyval) (tmpl : string)
    (keys : pyval) (text : string) (ign kept : list pyval) :
  truthy keys = false ->
  render_configuration (PList entries) tmpl keys
  = inr (RetTuple text ign kept) ->
  ign = [] /\ kept = entries.
Proof.
  unfold render_configuration. intros Hkeys Hr.
  destruct (Template tmpl) as [e | t]; [done |]. cbn [bind_exn] in Hr.
  destruct (negb (truthy (PList entries))); [done |]. cbn [iter bind_exn] in Hr.
  destruct (render_loop t entries keys [] [] [])
    as [e | [[parts' ign'] kept']] eqn:Hloop; [done |].
  cbn [bind_exn] in Hr. simplify_eq.
  apply render_loop_returns in Hloop
    as (ps & i & k & -> & -> & -> & Hi & Hk & Hperm & Hps & Hdict & Hfalsy).
  rewrite (Hfalsy Hkeys) in *. split; [done |]. simpl in *.
  apply sublist_same_length; [done |]. by rewrite Hperm.
Qed.
End Renderer.

(** ** More on the run *)

Section Outcome.
Context `{Jinja2} `{TTP} `{OS}.

(** X5. A run reads and writes no path but its destination: every other
    path holds afterwards what it held before. *)
Theorem only_destination_touched (p : params) (fs : filesystem)
    (path : string) :
  dest_path p <> Some path ->
  (main p fs).2 !! path = fs !! path.
Proof.
  intros Hpath.
  destruct (main_outcome p fs) as (s & r & Hs & Hch & Hmain).
  destruct s as [text | e | msg]; [| by rewrite Hmain ..].
  destruct Hmain as [_ Hmain].
  destruct (check_mode p); [by rewrite Hmain |].
  destruct (dest_path p) as [[| c dest'] |]; [by rewrite Hmain | | by rewrite Hmain].
  cbv zeta in Hmain. rewrite Hmain.
  assert (String c dest' <> path) by congruence.
  repeat case_match; simpl; try done; by rewrite lookup_insert_ne.
Qed.

(** X6. [changed] is reported true only by a run that did not fail and has
    just written its rendered text to the destination, which did not read
    as that text before; and a run that did not fail and reports [changed]
    false has left the file system as it was. *)
Theorem changed_only_after_writing (p : params) (fs : filesystem) :
  (changed (result_of (main p fs).1) = true ->
   failed (main p fs).1 = false
   /\ check_mode p = false
   /\ exists dest,
       dest_path p = Some dest
       /\ (main p fs).2
          = <[dest := File (rendered_config (result_of (main p fs).1))]> fs
       /\ forall stored,
           fs !! dest = Some (File stored) ->
           universal_newlines stored
           <> rendered_config (result_of (main p fs).1))
  /\ (changed (result_of (main p fs).1) = false ->
      failed (main p fs).1 = false ->
      (main p fs).2 = fs).
Proof.
  destruct (main_outcome p fs) as (s & r & Hs & Hch & Hmain).
  destruct (main p fs) as [o fs'] eqn:Hrun. simpl.
  destruct s as [text | e | msg];
    [| simplify_eq; simpl; rewrite Hch; by split ..].
  destruct Hmain as [Htext Hmain].
  destruct (check_mode p) eqn:Hmode;
    [simplify_eq; simpl; rewrite Hch; by split |].
  destruct (dest_path p) as [[| c dest'] |] eqn:Hdest;
    [simplify_eq; simpl; rewrite Hch; by split |
    | simplify_eq; simpl; rewrite Hch; by split].
  cbv zeta in Hmain. set (dest := String c dest') in *.
  destruct (fs !! dest) as [[stored |] |] eqn:Hfile;
    repeat case_match; simplify_eq; simpl; rewrite ?Hch;
    try (by split).
  - (* the destination read as another text and was overwritten *)
    split; [intros _ | done]. split; [done |]. split; [done |].
    exists dest. split; [done |]. split; [done |].
    intros stored' Hstored'. simplify_eq. by apply String.eqb_neq.
  - (* the destination did not exist and was written *)
    split; [intros _ | done]. split; [done |]. split; [done |].
    exists dest. by rewrite Hfile.
Qed.

(** X7. After a run out of check mode that did not fail, the destination
    is a regular file that reads, in text mode, as the text reported as
    [rendered_config] reads; as that very text when it holds no carriage
    return. *)
Theorem destination_reads_as_rendered_config (p : params) (fs : filesystem)
    (dest : string) :
  check_mode p = false ->
  dest_path p = Some dest ->
  dest <> EmptyString ->
  failed (main p fs).1 = false ->
  exists stored,
    (main p fs).2 !! dest = Some (File stored)
    /\ universal_newlines stored
       = universal_newlines (rendered_config (result_of (main p fs).1))
    /\ (cr_free (rendered_config (result_of (main p fs).1)) = true ->
        universal_newlines stored
        = rendered_config (result_of (main p fs).1)).
Proof.
  intros Hmode Hdest Hne.
  destruct (main_outcome p fs) as (s & r & Hs & Hch & Hmain).
  destruct (main p fs) as [o fs'] eqn:Hrun. simpl.
  destruct s as [text | e | msg]; [| by simplify_eq ..].
  destruct Hmain as [Htext Hmain]. rewrite Hmode, Hdest in Hmain.
  destruct dest as [| c dest']; [done |].
  cbv zeta in Hmain. set (dest := String c dest') in *.
  destruct (fs !! dest) as [[stored |] |] eqn:Hfile;
    repeat case_match; simplify_eq; simpl; try done; intros _.
  - (* left as found: it reads as the rendered text *)
    exists stored. split; [done |].
    match goal with Heq : String.eqb _ _ = true |- _ =>
      apply String.eqb_eq in Heq; rewrite <- Heq end.
    by rewrite universal_newlines_idemp.
  - (* overwritten *)
    eexists. rewrite lookup_insert_eq. split; [done |]. split; [done |].
    apply cr_free_universal_newlines.
  - (* written anew *)
    eexists. rewrite lookup_insert_eq. split; [done |]. split; [done |].
    apply cr_free_universal_newlines.
Qed.

(** X8. A run that fails reports [changed] false.  It has written nothing,
    unless it failed in the write itself after the destination was opened:
    then the destination is left with what the broken write put there,
    and nothing else has changed. *)
Theorem failed_run_effect (p : params) (fs : filesystem) :
  failed (main p fs).1 = true ->
  changed (result_of (main p fs).1) = false
  /\ ((main p fs).2 = fs
      \/ exists dest e partial,
           check_mode p = false
           /\ dest_path p = Some dest
           /\ can_write dest = true
           /\ write_error dest (rendered_config (result_of (main p fs).1))
              = Some (e, partial)
           /\ (main p fs).1
              = fail_json (StrOf e) (result_of (main p fs).1)
           /\ (main p fs).2 = <[dest := File partial]> fs).
Proof.
  destruct (main_outcome p fs) as (s & r & Hs & Hch & Hmain).
  destruct (main p fs) as [o fs'] eqn:Hrun. simpl.
  destruct s as [text | e | msg]; [| simplify_eq; simpl; by auto ..].
  destruct Hmain as [Htext Hmain].
  destruct (check_mode p) eqn:Hmode; [by simplify_eq |].
  destruct (dest_path p) as [[| c dest'] |] eqn:Hdest;
    [by simplify_eq | | by simplify_eq].
  cbv zeta in Hmain. set (dest := String c dest') in *.
  destruct (fs !! dest) as [[stored |] |] eqn:Hfile;
    repeat case_match; simplify_eq; simpl; try done; intros _;
    (split; [done |]); try (by left);
    right; by eexists dest, _, _.
Qed.

Lemma stages_with_check_mode (b : bool) (p : params) :
  stages (with_check_mode b p) = stages p.
Proof. done. Qed.

(** X9. Check mode reports what the run out of check mode reports, but for
    [changed]: the same rendered text, records, sources and destination
    path; and when the run in check mode fails, the other one ends the
    same way. *)
Theorem check_mode_same_report (p : params) (fs : filesystem) :
  result_of (main (with_check_mode true p) fs).1
  = set_changed false (result_of (main p fs).1)
  /\ (failed (main (with_check_mode true p) fs).1 = true ->
      main p fs = main (with_check_mode true p) fs).
Proof.
  destruct (main_outcome p fs) as (s & r & Hs & Hch & Hmain).
  destruct (main_outcome (with_check_mode true p) fs)
    as (s' & r' & Hs' & _ & Hdry).
  rewrite stages_with_check_mode, Hs in Hs'. simplify_eq.
  assert (Hr : set_changed false r' = r')
    by (rewrite <- Hch; apply set_changed_same).
  destruct s' as [text | e | msg].
  - destruct Hdry as [_ Hdry]. cbn [check_mode with_check_mode] in Hdry.
    assert (Hdry' : main (with_check_mode true p) fs = (exit_json r', fs))
      by (by repeat case_match).
    rewrite Hdry'. split; [| done]. simpl.
    destruct Hmain as [_ Hmain].
    destruct (check_mode p); [by rewrite Hmain |].
    destruct (dest_path p) as [[| c dest'] |];
      [by rewrite Hmain | | by rewrite Hmain].
    cbv zeta in Hmain. rewrite Hmain.
    repeat case_match; simpl; try done; by destruct r'.
  - by rewrite Hmain, Hdry.
  - by rewrite Hmain, Hdry.
Qed.

(** X23. A rendered text that holds a carriage return is written on every
    run: after a run out of check mode that did not fail, the next run on
    the same inputs reads the destination with a line feed in its place,
    finds it different, writes it again and reports [changed] true (the
    destination being readable and writable). *)
Theorem carriage_return_written_on_every_run (p : params) (fs : filesystem)
    (dest : string) :
  check_mode p = false ->
  dest_path p = Some dest ->
  dest <> EmptyString ->
  inputs_fixed p fs (main p fs).2 ->
  failed (main p fs).1 = false ->
  read_error dest = None ->
  can_write dest = true ->
  (forall text, write_error dest text = None) ->
  cr_free (rendered_config (result_of (main p fs).1)) = false ->
  main p (main p fs).2
  = (exit_json (set_changed true (result_of (main p fs).1)), (main p fs).2).
Proof.
  intros Hmode Hdest Hne [Hc Ht] Hok Hread Hcan Hwrite Hcr.
  destruct (main_outcome p fs) as (s & r & Hs & Hch & Hmain).
  destruct (main_outcome p (main p fs).2) as (s' & r' & Hs' & _ & Hmain').
  pose proof (stages_ext p initial_result _ _ Hc Ht) as Hext.
  rewrite Hs, Hs' in Hext. simpl in Hext. simplify_eq.
  destruct s as [text | e | msg]; [| by rewrite Hmain in Hok ..].
  destruct Hmain as [Htext Hmain], Hmain' as [_ Hmain'].
  rewrite Hmode, Hdest in Hmain, Hmain'.
  destruct dest as [| c dest']; [done |].
  cbv zeta in Hmain, Hmain'. set (dest := String c dest') in *.
  rewrite Hread, Hcan, Hwrite in Hmain, Hmain'.
  assert (Hfirst : main p fs
                   = (exit_json (set_changed true r),
                      <[dest := File text]> fs)).
  { rewrite Hmain. rewrite Hmain in Hok, Hcr.
    destruct (fs !! dest) as [[stored |] |]; [| done | done].
    destruct (String.eqb (universal_newlines stored) text) eqn:Heq; [| done].
    apply String.eqb_eq in Heq. simpl in Hcr.
    by rewrite Htext, <- Heq, universal_newlines_cr_free in Hcr. }
  rewrite Hfirst in Hmain', Hcr |- *. simpl in Hmain', Hcr |- *.
  rewrite Htext in Hcr. apply universal_newlines_changes in Hcr.
  apply String.eqb_neq in Hcr.
  rewrite lookup_insert_eq, Hcr, insert_insert_eq in Hmain'.
  rewrite Hmain'. by destruct r.
Qed.

(** X11. [load_content] on a path succeeds exactly when the path holds a
    regular file that can be read, and gives what the file reads as in text
    mode together with ["file:"] followed by the path.  A missing path
    gives the file-not-found error, a file that cannot be read (no
    permission, bytes that do not decode) the error of the read, and every
    failure is a [ValueError] whose text starts with
    ["Error loading content: "] and goes on with the [str] of its cause. *)
Theorem load_content_from_path (param_value : option string)
    (fs : filesystem) :
  (forall content source,
      load_content param_value true fs = inr (content, source)
      <-> exists path stored,
          param_value = Some path
          /\ fs !! path = Some (File stored)
          /\ read_error path = None
          /\ content = universal_newlines stored
          /\ source = ("file:" ++ path)%string)
  /\ (forall path,
        param_value = Some path -> fs !! path = None ->
        load_content param_value true fs
        = inl (ValueErrorFrom "Error loading content: "
                 (ValueError ("File not found: " ++ path)%string)))
  /\ (forall path stored e,
        param_value = Some path -> fs !! path = Some (File stored) ->
        read_error path = Some e ->
        load_content param_value true fs
        = inl (ValueErrorFrom "Error loading content: " e))
  /\ (forall e,
        load_content param_value true fs = inl e ->
        exists cause, e = ValueErrorFrom "Error loading content: " cause).
Proof.
  unfold load_content, exists_path, open_read, read_text.
  split; [| split; [| split]].
  - intros content source. split.
    + intros Hload. destruct param_value as [path |]; [| done].
      exists path.
      destruct (fs !! path) as [[stored |] |]; simpl in Hload; try done.
      exists stored. destruct (read_error path); by simplify_eq.
    + intros (path & stored & -> & Hfile & Hread & -> & ->).
      rewrite Hfile. simpl. by rewrite Hread.
  - intros path -> Hfile. by rewrite Hfile.
  - intros path stored e -> Hfile Hread. rewrite Hfile. simpl.
    by rewrite Hread.
  - intros e Hload. destruct param_value as [path |]; [| by simplify_eq; eauto].
    destruct (fs !! path) as [[stored |] |]; simpl in Hload;
      try destruct (read_error path); simplify_eq; eauto.
Qed.
End Outcome.

(** ** The inventory pattern *)

Section Pattern.
Import UnavailableHosts.

Lemma plus_stops {R} (cls : ascii -> bool)
    (k : list ascii -> list ascii -> option R) (matched text : list ascii) :
  stops cls text -> plus cls k matched text = None.
Proof. destruct text as [| c rest]; [done |]. simpl. by intros ->. Qed.

Lemma plus_found {R} (cls : ascii -> bool)
    (k : list ascii -> list ascii -> option R) (run rest : list ascii) (r : R) :
  run <> [] ->
  Forall (fun c => cls c = true) run ->
  stops cls rest ->
  forall matched,
    k (matched ++ run) rest = Some r ->
    plus cls k matched (run ++ rest) = Some r.
Proof.
  intros Hne Hrun Hstop.
  induction Hrun as [| c run Hc Hrun IH]; [done |]. intros matched Hk.
  simpl. rewrite Hc. destruct run as [| c' run'].
  - simpl. rewrite plus_stops by done. done.
  - rewrite (IH ltac:(done) (matched ++ [c])); [done |].
    by rewrite <- app_assoc.
Qed.

Lemma plus_sound {R} (cls : ascii -> bool)
    (k : list ascii -> list ascii -> option R) (text : list ascii) (r : R) :
  forall matched,
    plus cls k matched text = Some r ->
    exists run rest,
      text = run ++ rest /\ run <> []
      /\ Forall (fun c => cls c = true) run
      /\ k (matched ++ run) rest = Some r.
Proof.
  induction text as [| c text IH]; intros matched Hplus; [done |].
  simpl in Hplus. destruct (cls c) eqn:Hc; [| done].
  destruct (plus cls k (matched ++ [c]) text) as [r' |] eqn:Hmore.
  - simplify_eq. apply IH in Hmore as (run & rest & -> & _ & Hrun & Hk).
    exists (c :: run), rest. rewrite <- app_assoc in Hk.
    repeat split; try done. by constructor.
  - exists [c], text. repeat split; try done. by repeat constructor.
Qed.

(** When the rest of the pattern always matches, the run is the longest. *)
Lemma plus_longest {R} (cls : ascii -> bool) (f : list ascii -> R)
    (text : list ascii) (r : R) :
  forall matched,
    plus cls (fun run _ => Some (f run)) matched text = Some r ->
    exists run rest,
      text = run ++ rest /\ run <> []
      /\ Forall (fun c => cls c = true) run
      /\ stops cls rest
      /\ r = f (matched ++ run).
Proof.
  induction text as [| c text IH]; intros matched Hplus; [done |].
  simpl in Hplus. destruct (cls c) eqn:Hc; [| done].
  destruct (plus cls _ (matched ++ [c]) text) as [r' |] eqn:Hmore.
  - simplify_eq. apply IH in Hmore as (run & rest & -> & _ & Hrun & Hstop & ->).
    exists (c :: run), rest. rewrite <- app_assoc.
    repeat split; try done. by constructor.
  - exists [c], text. simplify_eq. repeat split; try done.
    + by repeat constructor.
    + destruct text as [| c' text']; [done |]. simpl in *.
      destruct (cls c'); [| done]. by destruct (plus cls _ _ text').
Qed.

Lemma literal_found (lit rest : list ascii) :
  literal lit (lit ++ rest) = Some rest.
Proof.
  induction lit as [| a lit IH]; [by destruct rest |].
  simpl. by rewrite Ascii.eqb_refl.
Qed.

Lemma literal_sound (lit text rest : list ascii) :
  literal lit text = Some rest -> text = lit ++ rest.
Proof.
  revert text. induction lit as [| a lit IH]; intros text Hlit.
  - destruct text; simpl in Hlit; by simplify_eq.
  - destruct text as [| c text]; [done |]. simpl in Hlit.
    destruct (Ascii.eqb a c) eqn:Hac; [| done].
    apply Ascii.eqb_eq in Hac as ->. simpl. f_equal. by apply IH.
Qed.

Lemma match_here_found (name ws ip tail : list ascii) :
  name <> [] -> Forall (fun c => nonspace c = true) name ->
  ws <> [] -> Forall (fun c => isspace c = true) ws ->
  ip <> [] -> Forall (fun c => nonspace c = true) ip ->
  stops nonspace tail ->
  match_here (name ++ ws ++ ansible_host ++ ip ++ tail) = Some (name, ip).
Proof.
  intros Hname Hname_cls Hws Hws_cls Hip Hip_cls Htail. unfold match_here.
  apply plus_found; try done.
  { destruct ws as [| c ws']; [done |]. simpl.
    apply Forall_cons_1 in Hws_cls as [Hc _]. unfold nonspace. by rewrite Hc. }
  apply plus_found; try done.
  rewrite literal_found. by apply plus_found.
Qed.

Lemma match_here_sound (text name ip : list ascii) :
  match_here text = Some (name, ip) ->
  exists ws post,
    text = name ++ ws ++ ansible_host ++ ip ++ post
    /\ name <> [] /\ Forall (fun c => nonspace c = true) name
    /\ ws <> [] /\ Forall (fun c => isspace c = true) ws
    /\ ip <> [] /\ Forall (fun c => nonspace c = true) ip
    /\ stops nonspace post.
Proof.
  unfold match_here. intros Hm.
  apply plus_sound in Hm as (name' & after_name & -> & Hname & Hname_cls & Hm).
  apply plus_sound in Hm as (ws & after_space & -> & Hws & Hws_cls & Hm).
  destruct (literal ansible_host after_space) as [after_literal |] eqn:Hlit;
    [| done].
  apply literal_sound in Hlit as ->.
  apply (plus_longest nonspace (fun run => (name', run))) in Hm
    as (ip' & post & -> & Hip & Hip_cls & Hpost & Heq).
  simpl in Heq. simplify_eq. by exists ws, post.
Qed.

Lemma search_eq (line : list ascii) :
  search line
  = match match_here line with
    | Some groups => Some groups
    | None => match line with [] => None | _ :: rest => search rest end
    end.
Proof. by destruct line. Qed.

Lemma search_sound (line : list ascii) (groups : list ascii * list ascii) :
  search line = Some groups ->
  exists pre text, line = pre ++ text /\ match_here text = Some groups.
Proof.
  induction line as [| c line IH]; intros Hs.
  - done.
  - simpl in Hs. destruct (match_here (c :: line)) eqn:Hm.
    + simplify_eq. by exists [], (c :: line).
    + apply IH in Hs as (pre & text & -> & Hm'). by exists (c :: pre), text.
Qed.

(** X12. A line that holds, after leading whitespace only, a host name,
    whitespace, [ansible_host=] and an address, the two free of whitespace
    and the address followed by whitespace or by the end of the line, gives
    that name and that address. *)
Theorem inventory_line_found (lead name ws ip tail : list ascii) :
  Forall (fun c => isspace c = true) lead ->
  name <> [] -> Forall (fun c => nonspace c = true) name ->
  ws <> [] -> Forall (fun c => isspace c = true) ws ->
  ip <> [] -> Forall (fun c => nonspace c = true) ip ->
  stops nonspace tail ->
  search (lead ++ name ++ ws ++ ansible_host ++ ip ++ tail) = Some (name, ip).
Proof.
  intros Hlead Hname Hname_cls Hws Hws_cls Hip Hip_cls Htail.
  induction Hlead as [| c lead Hc Hlead IH].
  - rewrite app_nil_l, search_eq.
    by rewrite (match_here_found name ws ip tail).
  - rewrite <- app_comm_cons, search_eq.
    replace (match_here (c :: lead ++ name ++ ws ++ ansible_host ++ ip ++ tail))
      with (@None (list ascii * list ascii)); [done |].
    unfold match_here. simpl. unfold nonspace. by rewrite Hc.
Qed.

(** X13. Whatever the line, a match gives a name and an address that are
    not empty and hold no whitespace, taken from the line around whitespace
    and the text [ansible_host=]; the address goes up to the next whitespace
    or the end of the line.  A line without that text gives no host. *)
Theorem search_groups (line name ip : list ascii) :
  search line = Some (name, ip) ->
  exists pre ws post,
    line = pre ++ name ++ ws ++ ansible_host ++ ip ++ post
    /\ name <> [] /\ Forall (fun c => nonspace c = true) name
    /\ ws <> [] /\ Forall (fun c => isspace c = true) ws
    /\ ip <> [] /\ Forall (fun c => nonspace c = true) ip
    /\ stops nonspace post.
Proof.
  intros Hs. apply search_sound in Hs as (pre & text & -> & Hm).
  apply match_here_sound in Hm as (ws & post & -> & Hrest).
  by exists pre, ws, post.
Qed.
End Pattern.

(** ** Reading the inventory *)

Section Inventory.
Import UnavailableHosts.
Context `{Platform}.

Lemma list_ascii_of_string_app (a b : string) :
  list_ascii_of_string (a ++ b)%string
  = list_ascii_of_string a ++ list_ascii_of_string b.
Proof. induction a as [| c a IH]; [done |]. cbn. by rewrite <- IH. Qed.

Lemma lines_from_line (current line rest : list ascii) :
  Forall (fun c => Ascii.eqb c "010" = false) line ->
  lines_from current (line ++ "010"%char :: rest)
  = (current ++ line ++ ["010"%char]) :: lines_from [] rest.
Proof.
  intros Hline. revert current.
  induction Hline as [| c line Hc Hline IH]; intros current; [done |].
  simpl. rewrite Hc, IH. by rewrite <- app_assoc.
Qed.

Lemma nonspace_not_newline (c : ascii) :
  nonspace c = true -> Ascii.eqb c "010" = false.
Proof.
  intros Hc. destruct (Ascii.eqb c "010") eqn:Heq; [| done].
  apply Ascii.eqb_eq in Heq as ->. done.
Qed.

(** The characters of one inventory line, without its newline. *)
Lemma inventory_line_chars (entry : string * string) :
  list_ascii_of_string (inventory_line entry)
  = (list_ascii_of_string entry.1 ++ [" "%char] ++ ansible_host
     ++ list_ascii_of_string entry.2) ++ ["010"%char].
Proof.
  unfold inventory_line. rewrite !list_ascii_of_string_app.
  by rewrite <- !app_assoc.
Qed.

Lemma token_chars (s : string) :
  token s ->
  list_ascii_of_string s <> []
  /\ Forall (fun c => nonspace c = true) (list_ascii_of_string s).
Proof. intros [Hne Hcls]. split; [| done]. by destruct s. Qed.

Lemma add_inventory_line (found : hosts) (entry : string * string) :
  token entry.1 -> token entry.2 ->
  add_line found
    (list_ascii_of_string entry.1 ++ [" "%char] ++ ansible_host
     ++ list_ascii_of_string entry.2 ++ ["010"%char])
  = dict_set found entry.1 (YStr entry.2).
Proof.
  intros [Hname Hname_cls]%token_chars [Hip Hip_cls]%token_chars.
  unfold add_line.
  pose proof (inventory_line_found [] (list_ascii_of_string entry.1)
                [" "%char] (list_ascii_of_string entry.2) ["010"%char]) as Hs.
  rewrite app_nil_l in Hs. rewrite Hs; try done.
  - by rewrite !string_of_list_ascii_of_string.
  - by repeat constructor.
Qed.

Lemma read_inventory_lines (entries : list (string * string)) :
  Forall (fun entry => token entry.1 /\ token entry.2) entries ->
  forall found,
    fold_left add_line
      (lines_from [] (list_ascii_of_string (inventory_text entries))) found
    = fold_left (fun found entry => dict_set found entry.1 (YStr entry.2))
        entries found.
Proof.
  induction 1 as [| entry entries [Hname Hip] _ IH]; intros found; [done |].
  cbn [inventory_text]. rewrite list_ascii_of_string_app, inventory_line_chars.
  rewrite <- app_assoc. cbn [app].
  rewrite lines_from_line.
  - cbn [fold_left app]. rewrite <- IH. f_equal.
    rewrite <- add_inventory_line by done. f_equal.
    by rewrite <- !app_assoc.
  - apply token_chars in Hname as [_ Hname]. apply token_chars in Hip as [_ Hip].
    apply Forall_app. split.
    { eapply Forall_impl; [done |]. apply nonspace_not_newline. }
    constructor; [done |]. apply Forall_app. split.
    { vm_compute. by repeat constructor. }
    eapply Forall_impl; [done |]. apply nonspace_not_newline.
Qed.

Lemma dict_set_fresh {V} (d : list (string * V)) (key : string) (value : V) :
  key ∉ d.*1 -> dict_set d key value = d ++ [(key, value)].
Proof.
  induction d as [| [k v] d IH]; intros Hfresh; [done |].
  simpl in *. apply not_elem_of_cons in Hfresh as [Hne Hfresh].
  destruct (String.eqb k key) eqn:Heq.
  - apply String.eqb_eq in Heq. congruence.
  - by rewrite IH.
Qed.

Lemma fill_fresh (entries : list (string * string)) :
  forall found : hosts,
    NoDup (found.*1 ++ entries.*1) ->
    fold_left (fun found entry => dict_set found entry.1 (YStr entry.2))
      entries found
    = found ++ map (fun entry => (entry.1, YStr entry.2)) entries.
Proof.
  induction entries as [| entry entries IH]; intros found Hnodup.
  - by rewrite app_nil_r.
  - cbn [fold_left map fmap list_fmap] in *.
    apply NoDup_app in Hnodup as (Hfound & Hdisj & Hentries).
    rewrite dict_set_fresh.
    2: { intros Hin. apply (Hdisj _ Hin). by left. }
    rewrite IH.
    + by rewrite <- app_assoc.
    + rewrite fmap_app. cbn. rewrite <- app_assoc. cbn.
      apply NoDup_app. repeat split; [done | | done].
      intros key Hin. by apply Hdisj.
Qed.

(** X14. Reading back a static inventory with one line
    [name ansible_host=address] for each host, names and addresses being
    free of whitespace: every line fills the dict in turn, a repeated name
    keeping its place and taking the later address; when the names differ
    the dict holds exactly the listed pairs in their order. *)
Theorem static_inventory_read (ty file : string) (fs : filesystem)
    (entries : list (string * string)) :
  lower ty = "static" ->
  Forall (fun entry => token entry.1 /\ token entry.2) entries ->
  fs !! file = Some (File (inventory_text entries)) ->
  get_hosts_and_ip ty file fs = inr (hosts_of entries)
  /\ (NoDup entries.*1 ->
      hosts_of entries = map (fun entry => (entry.1, YStr entry.2)) entries).
Proof.
  intros Hty Hentries Hfile. split.
  - unfold get_hosts_and_ip, read_text. rewrite Hfile, Hty. cbn.
    f_equal. by apply read_inventory_lines.
  - intros Hnodup. unfold hosts_of. by rewrite fill_fresh.
Qed.
End Inventory.

(** ** Probing the hosts *)

Section Probes.
Import UnavailableHosts.
Context `{Platform} `{OS}.

Lemma add_hostvars_all (hostvars : list (string * yaml)) (ips : list yaml) :
  Forall2 (fun entry ip => subscript entry.2 "ansible_host" = inr ip)
    hostvars ips ->
  forall found,
    add_hostvars found hostvars
    = inr (fold_left (fun found entry => dict_set found entry.1 entry.2)
             (zip hostvars.*1 ips) found).
Proof.
  induction 1 as [| [host vars] ip hostvars ips Hip _ IH]; intros found;
    [done |].
  simpl in *. rewrite Hip. cbn [bind_error]. apply IH.
Qed.

Lemma add_hostvars_missing (before after : list (string * yaml))
    (host : string) (vars : list (string * yaml)) :
  Forall (fun entry => exists ip, subscript entry.2 "ansible_host" = inr ip)
    before ->
  dict_get vars "ansible_host" = None ->
  forall found,
    add_hostvars found (before ++ (host, YMap vars) :: after)
    = inl (KeyError "ansible_host").
Proof.
  intros Hbefore Hvars.
  induction Hbefore as [| [h v] before [ip Hip] _ IH]; intros found.
  - simpl. by rewrite Hvars.
  - simpl in *. rewrite Hip. cbn [bind_error]. apply IH.
Qed.

(** X15. Reading a dynamic inventory whose text loads as a mapping with
    host variables under [_meta] and [hostvars]: when every host has an
    [ansible_host], the dict takes the hosts with these addresses in turn;
    when one host's variables lack it, the whole call raises [KeyError],
    whatever the other hosts hold. *)
Theorem dynamic_inventory_read (ty file content : string) (fs : filesystem)
    (data meta : yaml) (hostvars : list (string * yaml)) :
  lower ty <> "static" ->
  fs !! file = Some (File content) ->
  safe_load content = inr data ->
  subscript data "_meta" = inr meta ->
  subscript meta "hostvars" = inr (YMap hostvars) ->
  (forall ips,
      Forall2 (fun entry ip => subscript entry.2 "ansible_host" = inr ip)
        hostvars ips ->
      get_hosts_and_ip ty file fs
      = inr (fold_left (fun found entry => dict_set found entry.1 entry.2)
               (zip hostvars.*1 ips) []))
  /\ (forall before host vars after,
        hostvars = before ++ (host, YMap vars) :: after ->
        Forall (fun entry =>
                  exists ip, subscript entry.2 "ansible_host" = inr ip)
          before ->
        dict_get vars "ansible_host" = None ->
        get_hosts_and_ip ty file fs = inl (KeyError "ansible_host")).
Proof.
  intros Hty Hfile Hload Hmeta Hvars.
  assert (Hnot : String.eqb (lower ty) "static" = false)
    by (by apply String.eqb_neq).
  unfold get_hosts_and_ip, read_text.
  rewrite Hfile, Hnot, Hload. cbn [bind_error].
  rewrite Hmeta. cbn [bind_error]. rewrite Hvars. cbn [bind_error items].
  split.
  - intros ips Hips. by apply add_hostvars_all.
  - intros before host vars after -> Hbefore Hmissing.
    by apply add_hostvars_missing.
Qed.

Lemma elem_of_dict_set {V} (d : list (string * V)) (key : string) (value : V)
    (entry : string * V) :
  entry ∈ dict_set d key value -> entry ∈ d \/ entry = (key, value).
Proof.
  induction d as [| [k v] d IH]; simpl.
  - intros Hin. apply list_elem_of_singleton in Hin. by right.
  - destruct (String.eqb k key) eqn:Heq.
    + apply String.eqb_eq in Heq as ->. intros Hin.
      apply elem_of_cons in Hin as [-> | Hin]; [by right |].
      left. by right.
    + intros Hin. apply elem_of_cons in Hin as [-> | Hin]; [left; by left |].
      destruct (IH Hin) as [? | ?]; [left; by right | by right].
Qed.

Lemma dict_set_keys {V} (d : list (string * V)) (key : string) (value : V) :
  (dict_set d key value).*1 = d.*1 \/ (dict_set d key value).*1 = d.*1 ++ [key].
Proof.
  induction d as [| [k v] d IH]; simpl; [by right |].
  destruct (String.eqb k key) eqn:Heq.
  - by left.
  - cbn. destruct IH as [-> | ->]; [by left | by right].
Qed.

Lemma dict_set_new_key {V} (d : list (string * V)) (key : string) (value : V) :
  (dict_set d key value).*1 = d.*1 ++ [key] -> key ∉ d.*1.
Proof.
  induction d as [| [k v] d IH]; simpl; [intros _; apply not_elem_of_nil |].
  destruct (String.eqb k key) eqn:Heq.
  - rewrite !fmap_cons. intros Hlen%(f_equal length).
    simpl in Hlen. rewrite length_app, !length_fmap in Hlen.
    simpl in Hlen. lia.
  - rewrite !fmap_cons. intros Hkeys. simpl in Hkeys. simplify_eq.
    apply not_elem_of_cons. split.
    + apply String.eqb_neq in Heq. congruence.
    + by apply IH.
Qed.

Lemma dict_set_NoDup {V} (d : list (string * V)) (key : string) (value : V) :
  NoDup d.*1 -> NoDup (dict_set d key value).*1.
Proof.
  intros Hd. destruct (dict_set_keys d key value) as [Hkeys | Hkeys].
  - by rewrite Hkeys.
  - rewrite Hkeys. apply NoDup_app. repeat split; [done | | apply NoDup_singleton].
    intros k Hk Hin. apply list_elem_of_singleton in Hin as ->.
    by apply dict_set_new_key in Hkeys.
Qed.

Lemma dict_set_not_empty {V} (d : list (string * V)) (key : string) (value : V) :
  dict_set d key value <> [].
Proof. destruct d as [| [k v] d]; simpl; [done |]. by destruct (String.eqb k key). Qed.

(** What the loop over the hosts keeps. *)
Lemma probe_hosts_report (todo : hosts) (threshold ssh_port : Z) :
  forall (slow : slow_hosts) msg n msg' slow' n',
    probe_hosts todo threshold ssh_port slow msg n = (inr (msg', slow'), n') ->
    (consistent slow msg -> consistent slow' msg')
    /\ (NoDup slow.*1 -> NoDup slow'.*1)
    /\ (forall entry,
          entry ∈ slow' ->
          entry ∈ slow
          \/ ((entry.1, entry.2.1) ∈ todo
              /\ slow_response threshold entry.2.2)).
Proof.
  induction todo as [| [host_name host_ip] todo IH];
    intros slow msg n msg' slow' n' Hprobe.
  - simpl in Hprobe. simplify_eq. repeat split; try done. by left.
  - simpl in Hprobe.
    destruct (check_ssh_port host_ip ssh_port threshold n)
      as [[e | response_time] n1] eqn:Hcheck; [done |].
    destruct (match response_time with
              | Some t => exceeds t threshold
              | None => true
              end) eqn:Hslow.
    + apply IH in Hprobe as (Hmsg & Hnodup & Hin). repeat split.
      * intros _. apply Hmsg. right. split; [apply dict_set_not_empty | done].
      * intros Hd. by apply Hnodup, dict_set_NoDup.
      * intros entry Hentry. destruct (Hin entry Hentry) as [Hold | [Hnew ?]].
        -- apply elem_of_dict_set in Hold as [? | ->]; [by left |].
           right. split; [by left |]. simpl.
           by destruct response_time.
        -- right. split; [by right | done].
    + apply IH in Hprobe as (Hmsg & Hnodup & Hin). repeat split; try done.
      intros entry Hentry. destruct (Hin entry Hentry) as [? | [? ?]];
        [by left |]. right. split; [by right | done].
Qed.

(** X16. What [find_slow_hosts] returns hangs together.  With status true
    the message says that no host is slow exactly when the list is empty;
    with status false the list is empty, the message is the one of the
    failed import and no host was probed.  Every listed host was found with
    no answer or an answer above the threshold, and no name is listed
    twice. *)
Theorem slow_hosts_report (ty inventory_object : string)
    (threshold ssh_port : Z) (fs fs' : filesystem) (n n' : net)
    (status : bool) (msg : string) (slow : slow_hosts) :
  find_slow_hosts ty inventory_object threshold ssh_port fs n
  = (inr (status, msg, slow), fs', n') ->
  (if status then consistent slow msg
   else slow = [] /\ msg = not_imported /\ n' = n)
  /\ Forall (fun entry => slow_response threshold entry.2.2) slow
  /\ NoDup slow.*1.
Proof.
  unfold find_slow_hosts. intros Hfind.
  assert (Hprobe : forall found fs0,
             match probe_hosts found threshold ssh_port [] all_answer n with
             | (inl e, n0) => (inl e, fs0, n0)
             | (inr (msg0, slow0), n0) => (inr (true, msg0, slow0), fs0, n0)
             end = (inr (status, msg, slow), fs', n') ->
             (if status then consistent slow msg
              else slow = [] /\ msg = not_imported /\ n' = n)
             /\ Forall (fun entry => slow_response threshold entry.2.2) slow
             /\ NoDup slow.*1).
  { intros found fs0 Hp.
    destruct (probe_hosts found threshold ssh_port [] all_answer n)
      as [[e | [msg0 slow0]] n0] eqn:Hloop; [done |]. simplify_eq.
    apply probe_hosts_report in Hloop as (Hmsg & Hnodup & Hin).
    split; [apply Hmsg; by left |]. split; [| apply Hnodup, NoDup_nil_2].
    apply Forall_forall. intros entry Hentry.
    destruct (Hin entry Hentry) as [Hnil | [_ ?]]; [| done].
    by apply elem_of_nil in Hnil. }
  destruct (String.eqb (lower ty) "static").
  - destruct (get_hosts_and_ip ty inventory_object fs) as [e | found]; [done |].
    by eapply Hprobe.
  - destruct (system (export_command inventory_object) fs) as [cod_oper fs1].
    destruct (negb (cod_oper =? 0)%Z).
    + simplify_eq. repeat split; try done. apply NoDup_nil_2.
    + destruct (get_hosts_and_ip ty (export_file inventory_object) fs1)
        as [e | found]; [done |].
      by eapply Hprobe.
Qed.

(** X17. With status true, every listed host is a host of the inventory
    that was read (the given file in static mode, the exported one in
    dynamic mode), listed with the address the inventory gives it. *)
Theorem slow_hosts_from_inventory (ty inventory_object : string)
    (threshold ssh_port : Z) (fs fs' : filesystem) (n n' : net)
    (msg : string) (slow : slow_hosts) :
  find_slow_hosts ty inventory_object threshold ssh_port fs n
  = (inr (true, msg, slow), fs', n') ->
  exists found,
    (if String.eqb (lower ty) "static"
     then get_hosts_and_ip ty inventory_object fs
     else get_hosts_and_ip ty (export_file inventory_object)
            (system (export_command inventory_object) fs).2)
    = inr found
    /\ forall entry, entry ∈ slow -> (entry.1, entry.2.1) ∈ found.
Proof.
  unfold find_slow_hosts. intros Hfind.
  assert (Hprobe : forall found fs0,
             match probe_hosts found threshold ssh_port [] all_answer n with
             | (inl e, n0) => (inl e, fs0, n0)
             | (inr (msg0, slow0), n0) => (inr (true, msg0, slow0), fs0, n0)
             end = (inr (true, msg, slow), fs', n') ->
             forall entry, entry ∈ slow -> (entry.1, entry.2.1) ∈ found).
  { intros found fs0 Hp.
    destruct (probe_hosts found threshold ssh_port [] all_answer n)
      as [[e | [msg0 slow0]] n0] eqn:Hloop; [done |]. simplify_eq.
    apply probe_hosts_report in Hloop as (_ & _ & Hin).
    intros entry Hentry. destruct (Hin entry Hentry) as [Hnil | [? _]]; [| done].
    by apply elem_of_nil in Hnil. }
  destruct (String.eqb (lower ty) "static").
  - destruct (get_hosts_and_ip ty inventory_object fs) as [e | found] eqn:Hget;
      [done |].
    exists found. split; [done |]. by eapply Hprobe.
  - destruct (system (export_command inventory_object) fs) as [cod_oper fs1].
    destruct (negb (cod_oper =? 0)%Z); [done |]. cbn [snd].
    destruct (get_hosts_and_ip ty (export_file inventory_object) fs1)
      as [e | found] eqn:Hget; [done |].
    exists found. split; [done |]. by eapply Hprobe.
Qed.

(** ** The run *)

(** X18. When the module ends with the list of hosts and an output file
    was named, that file holds the JSON text of exactly the list that is
    reported as content. *)
Theorem json_file_holds_content (p : params) (fs fs' : filesystem)
    (n n' : net) (printed : list string) (content : slow_hosts)
    (msg output_file : string) :
  main p fs n = (printed, exit_ok content msg, fs', n') ->
  json_output p = Some output_file ->
  fs' !! output_file = Some (File (dumps content))
  /\ printed = [status_line true].
Proof.
  unfold main, save_to_json, write_text. intros Hmain Hout.
  destruct (find_slow_hosts (type p) (inventory p) (timeout_threshold p)
              (port p) fs n) as [[[e | [[status msg0] slow]] fs1] n1];
    [by simplify_eq |].
  destruct status; [| by simplify_eq]. rewrite Hout in Hmain.
  destruct (fs1 !! output_file) as [[current |] |];
    try destruct (can_write output_file);
    try destruct (write_error output_file (dumps slow)) as [[e partial] |];
    simplify_eq; by rewrite lookup_insert_eq.
Qed.

Lemma find_slow_hosts_static_fs (ty inventory_object : string)
    (threshold ssh_port : Z) (fs : filesystem) (n : net) :
  lower ty = "static" ->
  (find_slow_hosts ty inventory_object threshold ssh_port fs n).1.2 = fs.
Proof.
  intros Hty. unfold find_slow_hosts. rewrite Hty. cbn.
  destruct (get_hosts_and_ip ty inventory_object fs) as [e | found]; [done |].
  by destruct (probe_hosts found threshold ssh_port [] all_answer n)
    as [[e | [msg slow]] n'].
Qed.

(** X19. In static mode the module writes no file but the output file:
    every other path holds afterwards what it held before, and without an
    output file nothing is written at all. *)
Theorem static_run_writes_only_output (p : params) (fs : filesystem)
    (n : net) :
  lower (type p) = "static" ->
  (forall path, json_output p <> Some path ->
                (main p fs n).1.2 !! path = fs !! path)
  /\ (json_output p = None -> (main p fs n).1.2 = fs).
Proof.
  intros Hty.
  pose proof (find_slow_hosts_static_fs (type p) (inventory p)
                (timeout_threshold p) (port p) fs n Hty) as Hfs.
  unfold main, save_to_json, write_text.
  destruct (find_slow_hosts (type p) (inventory p) (timeout_threshold p)
              (port p) fs n) as [[[e | [[status msg] slow]] fs1] n1];
    simpl in Hfs; subst fs1; [done |].
  destruct status; [| done].
  destruct (json_output p) as [output_file |]; [| done].
  split; [| done]. intros path Hpath.
  assert (output_file <> path) by congruence.
  destruct (fs !! output_file) as [[current |] |];
    try destruct (can_write output_file);
    try destruct (write_error output_file (dumps slow)) as [[e partial] |];
    simpl; try done; by rewrite lookup_insert_ne.
Qed.

(** X20. In dynamic mode, when the export command ends with a status other
    than zero, the module probes no host, writes no output file and ends
    failed with the message of the failed import, after printing the
    status line. *)
Theorem failed_import_ends_failed (p : params) (fs : filesystem) (n : net) :
  lower (type p) <> "static" ->
  (system (export_command (inventory p)) fs).1 <> 0%Z ->
  main p fs n
  = ([status_line false], exit_failed not_imported,
     (system (export_command (inventory p)) fs).2, n).
Proof.
  intros Hty Hcode.
  assert (Hnot : String.eqb (lower (type p)) "static" = false)
    by (by apply String.eqb_neq).
  unfold main, find_slow_hosts. rewrite Hnot.
  destruct (system (export_command (inventory p)) fs) as [cod_oper fs1].
  simpl in *. by rewrite (proj2 (Z.eqb_neq cod_oper 0) Hcode).
Qed.

Lemma rsplit_slash_none (s : string) :
  "/"%char ∉ list_ascii_of_string s -> rsplit_slash s = None.
Proof.
  induction s as [| c s IH]; [done |]. simpl. intros Hslash.
  apply not_elem_of_cons in Hslash as [Hc Hs]. rewrite IH by done.
  destruct (Ascii.eqb c "/") eqn:Heq; [| done].
  apply Ascii.eqb_eq in Heq. congruence.
Qed.

Lemma rsplit_slash_last (dir file : string) :
  "/"%char ∉ list_ascii_of_string file ->
  rsplit_slash (dir ++ String "/" file)%string = Some (dir, file).
Proof.
  intros Hfile. induction dir as [| c dir IH].
  - change (rsplit_slash (String "/" file) = Some (EmptyString, file)).
    simpl. by rewrite rsplit_slash_none.
  - change (rsplit_slash (String c (dir ++ String "/" file)%string)
            = Some (String c dir, file)).
    simpl. by rewrite IH.
Qed.

(** X21. Where the dynamic inventory is exported: beside the inventory
    when its path has a directory part, and to [/dynamic_inv.json], at the
    root of the file system, when its path has no slash. *)
Theorem export_file_place (dir file : string) :
  "/"%char ∉ list_ascii_of_string file ->
  export_file (dir ++ String "/" file)%string
  = (dir ++ "/dynamic_inv.json")%string
  /\ export_file file = "/dynamic_inv.json".
Proof.
  intros Hfile. unfold export_file, export_dir.
  by rewrite rsplit_slash_last, rsplit_slash_none.
Qed.

(** X22. A static inventory that cannot be read is not reported through
    [exit_json]: the exception of [open] goes uncaught, before anything
    is printed, probed or written. *)
Theorem unreadable_inventory_uncaught (p : params) (fs : filesystem)
    (n : net) :
  lower (type p) = "static" ->
  (forall content, fs !! inventory p <> Some (File content)) ->
  main p fs n = ([], uncaught (Exn (OSError (inventory p))), fs, n).
Proof.
  intros Hty Hfile. unfold main, find_slow_hosts, get_hosts_and_ip, read_text.
  rewrite Hty. cbn.
  destruct (fs !! inventory p) as [[content |] |] eqn:Hlook; try done.
  by destruct (Hfile content).
Qed.
End Probes.

(** ** The further properties on the sample inputs *)

Section MoreSamples.
Import Sample.

Lemma entries_split_in_order_witness :
  @render_configuration Jinja2Model.default (PList [PDict gi0; PDict gi1])
    interface_template (PList [PStr "Gi0/0"])
  = inr (RetTuple ("interface Gi0/1" ++ nl ++ " no ip proxy-arp")%string
           [PDict gi0] [PDict gi1])
  /\ [PDict gi0] `sublist_of` [PDict gi0; PDict gi1]
  /\ [PDict gi1] `sublist_of` [PDict gi0; PDict gi1]
  /\ [PDict gi0] ++ [PDict gi1] ≡ₚ [PDict gi0; PDict gi1]
  /\ length [PDict gi0] + length [PDict gi1] = length [PDict gi0; PDict gi1]
  /\ Forall is_dict [PDict gi0; PDict gi1].
Proof.
  split; [reflexivity |].
  apply (@entries_split_in_order Jinja2Model.default
           [PDict gi0; PDict gi1] interface_template (PList [PStr "Gi0/0"])
           ("interface Gi0/1" ++ nl ++ " no ip proxy-arp")%string).
  reflexivity.
Defined.

Lemma rendered_text_joins_kept_witness :
  exists t parts,
    @Template Jinja2Model.default interface_template = inr t
    /\ Forall2 (fun entry part =>
                  @render_entry Jinja2Model.default t entry = inr part)
         [PDict gi0; PDict gi1] parts
    /\ rendered_interfaces = join_lines parts.
Proof.
  apply (@rendered_text_joins_kept Jinja2Model.default
           [PDict gi0; PDict gi1] interface_template (PList [])
           rendered_interfaces []).
  reflexivity.
Defined.

Lemma first_entry_not_a_dict_raises_witness :
  iter (PDict gi0) = inr [PStr "ifname"]
  /\ @render_configuration Jinja2Model.default (PDict gi0) interface_template
       (PStr "Gi")
     = inl AttributeError
  /\ @render_configuration Jinja2Model.default (PDict gi0) interface_template
       (PStr "")
     = inl TypeError.
Proof.
  split; [reflexivity |]. split.
  - apply (@first_entry_not_a_dict_raises Jinja2Model.default (PDict gi0)
             interface_template interface_pieces (PStr "Gi") (PStr "ifname")
             []); try reflexivity.
    intros [].
  - apply (@first_entry_not_a_dict_raises Jinja2Model.default (PDict gi0)
             interface_template interface_pieces (PStr "") (PStr "ifname")
             []); try reflexivity.
    intros [].
Defined.

Lemma falsy_keys_keep_everything_witness :
  truthy (PStr "") = false
  /\ @render_configuration Jinja2Model.default (PList [PDict gi0; PDict gi1])
       interface_template (PStr "")
     = inr (RetTuple rendered_interfaces [] [PDict gi0; PDict gi1])
  /\ @nil pyval = []
  /\ [PDict gi0; PDict gi1] = [PDict gi0; PDict gi1].
Proof.
  split; [reflexivity |]. split; [reflexivity |].
  apply (@falsy_keys_keep_everything Jinja2Model.default
           [PDict gi0; PDict gi1] interface_template (PStr "")
           rendered_interfaces [] [PDict gi0; PDict gi1]);
    reflexivity.
Defined.

Lemma only_destination_touched_witness :
  dest_path (run_from_file "device.cfg") <> Some "device.cfg"
  /\ (@main Jinja2Model.default two_blocks permissive
        (run_from_file "device.cfg") device_files).2 !! "device.cfg"
     = device_files !! "device.cfg".
Proof.
  assert (Hpath : dest_path (run_from_file "device.cfg") <> Some "device.cfg")
    by discriminate.
  split; [exact Hpath |].
  exact (@only_destination_touched Jinja2Model.default two_blocks permissive
           (run_from_file "device.cfg") device_files "device.cfg" Hpath).
Defined.

Lemma changed_only_after_writing_witness :
  changed (result_of (@main Jinja2Model.default two_blocks permissive
                        plain_run other_file).1) = true
  /\ failed (@main Jinja2Model.default two_blocks permissive plain_run
               other_file).1 = false
  /\ check_mode plain_run = false
  /\ exists dest,
       dest_path plain_run = Some dest
       /\ (@main Jinja2Model.default two_blocks permissive plain_run
             other_file).2
          = <[dest := File (rendered_config
                              (result_of
                                 (@main Jinja2Model.default two_blocks
                                    permissive plain_run other_file).1))]>
              other_file
       /\ forall stored,
           other_file !! dest = Some (File stored) ->
           universal_newlines stored
           <> rendered_config
                (result_of (@main Jinja2Model.default two_blocks permissive
                              plain_run other_file).1).
Proof.
  assert (Hchanged : changed (result_of (@main Jinja2Model.default two_blocks
                                           permissive plain_run
                                           other_file).1) = true)
    by reflexivity.
  split; [exact Hchanged |].
  exact (proj1 (@changed_only_after_writing Jinja2Model.default two_blocks
                  permissive plain_run other_file) Hchanged).
Defined.

(** A destination stored with CRLF line ends is left as it is: it reads as
    the rendered text. *)
Lemma destination_reads_as_rendered_config_witness :
  failed (@main Jinja2Model.default two_blocks permissive plain_run
            crlf_file).1 = false
  /\ exists stored,
       (@main Jinja2Model.default two_blocks permissive plain_run
          crlf_file).2 !! "out.cfg" = Some (File stored)
       /\ universal_newlines stored
          = universal_newlines
              (rendered_config
                 (result_of (@main Jinja2Model.default two_blocks permissive
                               plain_run crlf_file).1))
       /\ (cr_free
             (rendered_config
                (result_of (@main Jinja2Model.default two_blocks permissive
                              plain_run crlf_file).1)) = true ->
           universal_newlines stored
           = rendered_config
               (result_of (@main Jinja2Model.default two_blocks permissive
                             plain_run crlf_file).1)).
Proof.
  assert (Hok : failed (@main Jinja2Model.default two_blocks permissive
                          plain_run crlf_file).1 = false) by reflexivity.
  split; [exact Hok |].
  exact (@destination_reads_as_rendered_config Jinja2Model.default two_blocks
           permissive plain_run crlf_file "out.cfg" eq_refl eq_refl
           ltac:(discriminate) Hok).
Defined.

(** On a full disk the write breaks after the destination was opened: the
    run fails and leaves an empty file. *)
Example broken_write_leaves_empty_file :
  @main Jinja2Model.default two_blocks full_disk plain_run other_file
  = (fail_json (StrOf (OSError "out.cfg")) plain_result, emptied_file).
Proof. vm_compute. reflexivity. Qed.

Lemma failed_run_effect_witness :
  failed (@main Jinja2Model.default two_blocks full_disk plain_run
            other_file).1 = true
  /\ changed (result_of (@main Jinja2Model.default two_blocks full_disk
                           plain_run other_file).1) = false
  /\ ((@main Jinja2Model.default two_blocks full_disk plain_run
         other_file).2 = other_file
      \/ exists dest e partial,
           check_mode plain_run = false
           /\ dest_path plain_run = Some dest
           /\ @can_write full_disk dest = true
           /\ @write_error full_disk dest
                (rendered_config
                   (result_of (@main Jinja2Model.default two_blocks full_disk
                                 plain_run other_file).1))
              = Some (e, partial)
           /\ (@main Jinja2Model.default two_blocks full_disk plain_run
                 other_file).1
              = fail_json (StrOf e)
                  (result_of (@main Jinja2Model.default two_blocks full_disk
                                plain_run other_file).1)
           /\ (@main Jinja2Model.default two_blocks full_disk plain_run
                 other_file).2 = <[dest := File partial]> other_file).
Proof.
  assert (Hfailed : failed (@main Jinja2Model.default two_blocks full_disk
                              plain_run other_file).1 = true) by reflexivity.
  split; [exact Hfailed |].
  exact (@failed_run_effect Jinja2Model.default two_blocks full_disk
           plain_run other_file Hfailed).
Defined.

Lemma carriage_return_written_on_every_run_witness :
  failed (@main Jinja2Model.default empty_result permissive cr_run
            no_files).1 = false
  /\ cr_free
       (rendered_config
          (result_of (@main Jinja2Model.default empty_result permissive
                        cr_run no_files).1)) = false
  /\ @main Jinja2Model.default empty_result permissive cr_run
       (@main Jinja2Model.default empty_result permissive cr_run
          no_files).2
     = (exit_json
          (set_changed true
             (result_of (@main Jinja2Model.default empty_result permissive
                           cr_run no_files).1)),
        (@main Jinja2Model.default empty_result permissive cr_run
           no_files).2).
Proof.
  split; [reflexivity |]. split; [reflexivity |].
  apply (@carriage_return_written_on_every_run Jinja2Model.default
           empty_result permissive cr_run no_files "out.cfg");
    try reflexivity; try discriminate.
  split; reflexivity.
Defined.

(** A file with CRLF line ends is loaded with line feeds; a file that does
    not decode makes the loading fail. *)
Lemma load_content_from_path_witness :
  @load_content permissive (Some "out.cfg") true crlf_file
  = inr (rendered_interfaces, "file:out.cfg")
  /\ @load_content undecodable (Some "out.cfg") true crlf_file
     = inl (ValueErrorFrom "Error loading content: " UnicodeError).
Proof.
  split.
  - apply (proj1 (@load_content_from_path permissive (Some "out.cfg")
                    crlf_file)).
    eexists "out.cfg", _. repeat split; reflexivity.
  - eapply (proj1 (proj2 (proj2 (@load_content_from_path undecodable
                                   (Some "out.cfg") crlf_file))));
      reflexivity.
Defined.
End MoreSamples.

Section HostSamples.
Import UnavailableHosts.

Lemma inventory_line_found_witness :
  search (list_ascii_of_string "  sw1   ansible_host=10.0.0.1 ansible_user=admin")
  = Some (list_ascii_of_string "sw1", list_ascii_of_string "10.0.0.1").
Proof.
  apply (inventory_line_found (list_ascii_of_string "  ")
           (list_ascii_of_string "sw1") (list_ascii_of_string "   ")
           (list_ascii_of_string "10.0.0.1")
           (list_ascii_of_string " ansible_user=admin"));
    try (vm_compute; discriminate);
    try (vm_compute; by repeat constructor).
Defined.

Lemma search_groups_witness :
  exists pre ws post,
    list_ascii_of_string "[core] sw1 ansible_host=10.0.0.1"
    = pre ++ list_ascii_of_string "sw1" ++ ws ++ ansible_host
      ++ list_ascii_of_string "10.0.0.1" ++ post
    /\ list_ascii_of_string "sw1" <> []
    /\ Forall (fun c => nonspace c = true) (list_ascii_of_string "sw1")
    /\ ws <> [] /\ Forall (fun c => isspace c = true) ws
    /\ list_ascii_of_string "10.0.0.1" <> []
    /\ Forall (fun c => nonspace c = true) (list_ascii_of_string "10.0.0.1")
    /\ stops nonspace post.
Proof.
  apply (search_groups (list_ascii_of_string "[core] sw1 ansible_host=10.0.0.1")).
  reflexivity.
Defined.

Lemma sample_entries_tokens :
  Forall (fun entry => token entry.1 /\ token entry.2) sample_entries.
Proof.
  repeat constructor; try discriminate; vm_compute; by repeat constructor.
Qed.

Lemma static_inventory_read_witness :
  lower "Static" = "static"
  /\ @get_hosts_and_ip sample_platform "Static" "hosts.ini" sample_files
     = inr (hosts_of sample_entries)
  /\ hosts_of sample_entries
     = [("sw1", YStr "10.0.0.1"); ("sw2", YStr "10.0.0.2")].
Proof.
  split; [reflexivity |].
  destruct (@static_inventory_read sample_platform "Static" "hosts.ini"
              sample_files sample_entries eq_refl sample_entries_tokens
              eq_refl) as [Hread Hdict].
  split; [exact Hread |]. apply Hdict.
  apply (bool_decide_unpack _). vm_compute. exact I.
Defined.

Lemma dynamic_inventory_read_witness :
  @get_hosts_and_ip exporting_platform "dynamic"
    "inventories/dynamic_inv.json" exported_files
  = inr [("sw1", YStr "10.0.0.1"); ("sw2", YStr "10.0.0.2")].
Proof.
  apply (proj1 (@dynamic_inventory_read exporting_platform "dynamic"
                  "inventories/dynamic_inv.json" "exported" exported_files
                  sample_data (YMap [("hostvars", YMap sample_hostvars)])
                  sample_hostvars ltac:(discriminate) eq_refl eq_refl eq_refl
                  eq_refl)
           [YStr "10.0.0.1"; YStr "10.0.0.2"]).
  repeat constructor.
Defined.

Lemma slow_hosts_report_witness :
  @find_slow_hosts sample_platform "static" "hosts.ini" 5 22 sample_files 0
  = (inr (true, some_slow, sample_slow), sample_files, 2)
  /\ consistent sample_slow some_slow
  /\ Forall (fun entry => @slow_response sample_platform 5 entry.2.2)
       sample_slow
  /\ NoDup sample_slow.*1.
Proof.
  assert (Hfind : @find_slow_hosts sample_platform "static" "hosts.ini" 5 22
                    sample_files 0
                  = (inr (true, some_slow, sample_slow), sample_files, 2))
    by (vm_compute; reflexivity).
  split; [exact Hfind |].
  exact (@slow_hosts_report sample_platform "static" "hosts.ini" 5 22
           sample_files sample_files 0 2 true some_slow sample_slow Hfind).
Defined.

Lemma slow_hosts_from_inventory_witness :
  exists found,
    @get_hosts_and_ip sample_platform "static" "hosts.ini" sample_files
    = inr found
    /\ forall entry, entry ∈ sample_slow -> (entry.1, entry.2.1) ∈ found.
Proof.
  apply (@slow_hosts_from_inventory sample_platform "static" "hosts.ini" 5 22
           sample_files sample_files 0 2 some_slow sample_slow).
  vm_compute. reflexivity.
Defined.

Lemma json_file_holds_content_witness :
  @main sample_platform permissive sample_params sample_files 0
  = ([status_line true], @exit_ok sample_platform sample_slow some_slow,
     <["slow.json" := File "sw2"]> sample_files, 2)
  /\ (<["slow.json" := File "sw2"]> sample_files) !! "slow.json"
     = Some (File (@dumps sample_platform sample_slow))
  /\ [status_line true] = [status_line true].
Proof.
  assert (Hmain : @main sample_platform permissive sample_params sample_files 0
                  = ([status_line true],
                     @exit_ok sample_platform sample_slow some_slow,
                     <["slow.json" := File "sw2"]> sample_files, 2))
    by (vm_compute; reflexivity).
  split; [exact Hmain |].
  exact (@json_file_holds_content sample_platform permissive sample_params
           sample_files _ 0 2 _ sample_slow some_slow "slow.json" Hmain
           eq_refl).
Defined.

Lemma static_run_writes_only_output_witness :
  lower (type sample_params) = "static"
  /\ (@main sample_platform permissive sample_params sample_files 0).1.2
       !! "hosts.ini"
     = sample_files !! "hosts.ini".
Proof.
  split; [reflexivity |].
  apply (@static_run_writes_only_output sample_platform permissive
           sample_params sample_files 0 eq_refl).
  discriminate.
Defined.

Lemma failed_import_ends_failed_witness :
  (@system sample_platform (export_command (inventory dynamic_params))
     sample_files).1 <> 0%Z
  /\ @main sample_platform permissive dynamic_params sample_files 0
     = ([status_line false], @exit_failed sample_platform not_imported,
        sample_files, 0).
Proof.
  assert (Hcode : (@system sample_platform
                     (export_command (inventory dynamic_params))
                     sample_files).1 <> 0%Z) by discriminate.
  split; [exact Hcode |].
  exact (@failed_import_ends_failed sample_platform permissive dynamic_params
           sample_files 0 ltac:(discriminate) Hcode).
Defined.

Lemma export_file_place_witness :
  export_file "inventories/fedele.yaml" = "inventories/dynamic_inv.json"
  /\ export_file "fedele.yaml" = "/dynamic_inv.json".
Proof.
  apply (export_file_place "inventories" "fedele.yaml").
  apply (bool_decide_unpack _). vm_compute. exact I.
Defined.

Lemma unreadable_inventory_uncaught_witness :
  sample_files !! "missing.ini" = None
  /\ @main sample_platform permissive missing_params sample_files 0
     = ([], @uncaught sample_platform (Exn (OSError "missing.ini")),
        sample_files, 0).
Proof.
  split; [reflexivity |].
  apply (@unreadable_inventory_uncaught sample_platform permissive
           missing_params sample_files 0 eq_refl).
  intros content. discriminate.
Defined.
End HostSamples.
